(** * Blogicum: the request handlers of [blog/views.py]

    A shallow embedding of the blog application's view layer.  The database
    is an explicit state threaded through a state-and-exception monad; the
    framework exceptions the handlers rely on ([Http404], [PermissionDenied])
    are values of that monad, so that "the record is left unchanged" is a
    statement about the final state of a run. *)

From Stdlib Require Import List ZArith String Bool Arith Lia.
From Stdlib Require Import Permutation Sorted Ascii.
From Stdlib Require DecimalString DecimalNat.
Import ListNotations.

Set Implicit Arguments.

(* ================================================================== *)
(** ** Data model *)

(** The models are declared in [blog/models.py]; the records below follow the entity table of the specification
    (section 3) and the field names the views use ([is_published],
    [pub_date], [author], [category__slug], [post_id], ...).  Primary keys
    are natural numbers and a foreign key holds the key of the row it
    references.  The keys of stored rows fit the database's 64-bit integer
    column; what the database layer does with a larger number asked for in
    a URL is not part of the model, and what is stated about keys that are
    not stored is stated for keys below 2^63. *)

(** Modelled from the spec: the reused User type, [get_user_model()], with
    the [username] the views look it up by. *)
Module User.
Record t := mk
  { pk : nat;
    username : string;
    first_name : string;
    last_name : string;
    email : string }.
End User.

(** Modelled from the spec: Category, with title, slug, description,
    is_published and created_at. *)
Module Category.
Record t := mk
  { pk : nat;
    title : string;
    slug : string;
    description : string;
    is_published : bool;
    created_at : Z }.
End Category.

(** Modelled from the spec: Location, with its name. *)
Module Location.
Record t := mk { pk : nat; name : string }.
End Location.

(** Modelled from the spec: Post, which belongs to one author, to one
    Category (the key may be null) and optionally to a Location. *)
Module Post.
Record t := mk
  { pk : nat;
    title : string;
    text : string;
    pub_date : Z;
    is_published : bool;
    author : nat;
    category : option nat;
    location : option nat;
    created_at : Z }.

Definition with_pk (k : nat) (p : t) : t :=
  mk k (title p) (text p) (pub_date p) (is_published p) (author p)
     (category p) (location p) (created_at p).

Definition with_author (a : nat) (p : t) : t :=
  mk (pk p) (title p) (text p) (pub_date p) (is_published p) a
     (category p) (location p) (created_at p).
End Post.

(** Modelled from the spec: Comment, which belongs to one Post and one
    author. *)
Module Comment.
Record t := mk
  { pk : nat;
    text : string;
    author : nat;
    post_id : nat;
    created_at : Z }.

Definition with_pk (k : nat) (c : t) : t :=
  mk k (text c) (author c) (post_id c) (created_at c).

Definition with_author (a : nat) (c : t) : t :=
  mk (pk c) (text c) a (post_id c) (created_at c).

Definition with_post (p : nat) (c : t) : t :=
  mk (pk c) (text c) (author c) p (created_at c).
End Comment.

(** The relational database: one table per model, rows in storage order. *)
Module DB.
Record t := mk
  { users : list User.t;
    categories : list Category.t;
    locations : list Location.t;
    posts : list Post.t;
    comments : list Comment.t }.

Definition set_users (us : list User.t) (db : t) : t :=
  mk us (categories db) (locations db) (posts db) (comments db).

Definition set_posts (ps : list Post.t) (db : t) : t :=
  mk (users db) (categories db) (locations db) ps (comments db).

Definition set_comments (cs : list Comment.t) (db : t) : t :=
  mk (users db) (categories db) (locations db) (posts db) cs.
End DB.

(* ================================================================== *)
(** ** Exceptions, and the monad of a handler *)

Inductive Exn : Set :=
| Http404
| PermissionDenied
| MultipleObjectsReturned
| PageNotAnInteger
| EmptyPage
| ZeroDivisionError
| ValueError
| NoReverseMatch.

Inductive Result (A : Type) : Type :=
| Ok (a : A)
| Raise (e : Exn).

Arguments Ok {A} a.
Arguments Raise {A} e.

(** A handler reads and writes the database and may raise; what it wrote
    before raising stays written (no transaction wraps a request). *)
Definition View (A : Type) : Type := DB.t -> Result A * DB.t.

Definition ret {A} (a : A) : View A := fun db => (Ok a, db).

Definition raise {A} (e : Exn) : View A := fun db => (Raise e, db).

Definition bind {A B} (m : View A) (k : A -> View B) : View B :=
  fun db =>
    match m db with
    | (Ok a, db') => k a db'
    | (Raise e, db') => (Raise e, db')
    end.

Definition lift {A} (r : Result A) : View A := fun db => (r, db).

Definition gets {A} (f : DB.t -> A) : View A := fun db => (Ok (f db), db).

Definition modify (f : DB.t -> DB.t) : View unit := fun db => (Ok tt, f db).

Declare Scope view_scope.
Delimit Scope view_scope with view.
Notation "x <- m ;; k" := (bind m (fun x => k))
  (at level 61, m at next level, right associativity) : view_scope.
Notation "m ;;; k" := (bind m (fun _ => k))
  (at level 61, right associativity) : view_scope.
Open Scope view_scope.

(* ================================================================== *)
(** ** Requests and responses *)

Inductive Method : Set :=
| GET | HEAD | POST | PUT | PATCH | DELETE | OPTIONS | TRACE.

(** The [page] query parameter as the paginator's [int(...)] sees it:
    absent (or empty), the text of an integer, the word [last], or any
    other text. *)
Inductive PageArg : Set :=
| PageAbsent
| PageInt (n : Z)
| PageLast
| PageOther.

Definition FormData : Set := list (string * string).

(** [user] is [request.user]: [None] is the anonymous user, [Some k] the
    authenticated user whose key is [k].  [now] is the reading of the clock
    ([dt.datetime.now(dt.timezone.utc)]) while the request is served. *)
Record Request := mkRequest
  { user : option nat;
    method : Method;
    POST_data : FormData;
    GET_page : PageArg;
    now : Z }.

(** Named routes of [blog/urls.py], and the login page with its [next]. *)
Inductive Url : Set :=
| blog_index
| blog_post_detail (pk : nat)
| blog_edit_post (pk : nat)
| blog_create_post
| blog_delete_post (pk : nat)
| blog_category_posts (category_slug : string)
| blog_profile (slug : string)
| blog_edit_profile (slug : string)
| blog_add_comment (pk : nat)
| blog_edit_comment (pk : nat)
| blog_delete_comment (pk : nat)
| login (next : Url).

(** A post together with its [comment_count] annotation. *)
Definition AnnotatedPost : Set := (Post.t * nat)%type.

(** One page of a paginator. *)
Record Page := mkPage
  { object_list : list AnnotatedPost;
    number : Z }.

(** What a template is rendered with.  [InvalidFormContext] is the context
    of a form that was submitted and did not validate: the bound form with
    its errors, around the instance as validation left it, which is not
    the stored row. *)
Inductive Context : Type :=
| ListContext (objects : list AnnotatedPost) (page_obj : option Page)
| CategoryContext (category : Category.t)
    (objects : list AnnotatedPost) (page_obj : option Page)
| DetailContext (object : Post.t) (comments : list Comment.t)
| ProfileContext (profile : User.t) (page_obj : Page)
| PostFormContext (instance : option Post.t)
| CommentFormContext (comment : Comment.t)
| UserFormContext (instance : User.t)
| InvalidFormContext (data : FormData).

Inductive HttpResponse : Type :=
| TemplateResponse (template_name : string) (context : Context)
| HttpResponseRedirect (to : Url)
| HttpResponseNotAllowed
| OptionsResponse.

(** The status the client sees: the framework turns [Http404] into 404 and
    [PermissionDenied] into 403; any other exception is a server error. *)
Definition status_code (r : Result HttpResponse) : Z :=
  match r with
  | Ok (TemplateResponse _ _) => 200
  | Ok (HttpResponseRedirect _) => 302
  | Ok HttpResponseNotAllowed => 405
  | Ok OptionsResponse => 200
  | Raise Http404 => 404
  | Raise PermissionDenied => 403
  | Raise _ => 500
  end%Z.

(* ================================================================== *)
(** ** Framework helpers *)

(** [get_object_or_404(Model, **lookups)]: exactly one row matches, or the
    lookup raises. *)
Definition get_object_or_404 {A} (objects : list A) (lookup : A -> bool)
  : Result A :=
  match filter lookup objects with
  | [] => Raise Http404
  | [x] => Ok x
  | _ :: _ :: _ => Raise MultipleObjectsReturned
  end.

(** [instance != request.user] for a user key: the anonymous user differs
    from every stored user. *)
Definition user_is (k : nat) (u : option nat) : bool :=
  match u with
  | Some k' => Nat.eqb k k'
  | None => false
  end.

Definition is_authenticated (u : option nat) : bool :=
  match u with Some _ => true | None => false end.

(** [LoginRequiredMixin.dispatch]: anonymous requests are sent to the login
    page, with the requested path as [next]; others go on to the next
    [dispatch] of the method resolution order. *)
Definition LoginRequiredMixin_dispatch (request : Request) (path : Url)
    (super_dispatch : View HttpResponse) : View HttpResponse :=
  if is_authenticated (user request)
  then super_dispatch
  else ret (HttpResponseRedirect (login path)).

(** [View.dispatch]: the handler named after the request method, when the
    class has one; [head] falls back to [get]. *)
Record Handlers := mkHandlers
  { h_get : option (View HttpResponse);
    h_post : option (View HttpResponse);
    h_put : option (View HttpResponse);
    h_delete : option (View HttpResponse) }.

Definition http_method_not_allowed : View HttpResponse :=
  ret HttpResponseNotAllowed.

Definition handler_or_405 (h : option (View HttpResponse))
  : View HttpResponse :=
  match h with
  | Some v => v
  | None => http_method_not_allowed
  end.

Definition View_dispatch (request : Request) (hs : Handlers)
  : View HttpResponse :=
  match method request with
  | GET | HEAD => handler_or_405 (h_get hs)
  | POST => handler_or_405 (h_post hs)
  | PUT => handler_or_405 (h_put hs)
  | DELETE => handler_or_405 (h_delete hs)
  | OPTIONS => ret OptionsResponse
  | PATCH | TRACE => http_method_not_allowed
  end.

(** A table read through [get_object_or_404]. *)
Definition get_or_404 {A} (table : DB.t -> list A) (lookup : A -> bool)
  : View A :=
  fun db => (get_object_or_404 (table db) lookup, db).

(* ================================================================== *)
(** ** The paginator *)

(** [django.core.paginator.Paginator] as the views build it: no orphans,
    and an empty first page is allowed. *)
Module Paginator.

Record t := mk
  { objects : list AnnotatedPost;
    per_page : nat }.

Definition count (p : t) : nat := List.length (objects p).

(** [ceil(max(1, count) / per_page)] *)
Definition num_pages (p : t) : Result Z :=
  if per_page p =? 0 then Raise ZeroDivisionError
  else Ok (Z.of_nat ((Nat.max 1 (count p) + per_page p - 1) / per_page p)).

Definition validate_number (p : t) (number : PageArg) : Result Z :=
  match number with
  | PageInt n =>
      if (n <? 1)%Z then Raise EmptyPage
      else match num_pages p with
           | Ok np => if (np <? n)%Z then Raise EmptyPage else Ok n
           | Raise e => Raise e
           end
  | PageAbsent | PageLast | PageOther => Raise PageNotAnInteger
  end.

(** [object_list[bottom:top]] *)
Definition slice {A} (bottom top : nat) (l : list A) : list A :=
  firstn (top - bottom) (skipn bottom l).

Definition page (p : t) (number : PageArg) : Result Page :=
  match validate_number p number with
  | Ok n =>
      let bottom := Z.to_nat (n - 1) * per_page p in
      let top := bottom + per_page p in
      let top := if count p <=? top then count p else top in
      Ok (mkPage (slice bottom top (objects p)) n)
  | Raise e => Raise e
  end.

Definition get_page (p : t) (number : PageArg) : Result Page :=
  match validate_number p number with
  | Ok n => page p (PageInt n)
  | Raise PageNotAnInteger => page p (PageInt 1)
  | Raise EmptyPage =>
      match num_pages p with
      | Ok np => page p (PageInt np)
      | Raise e => Raise e
      end
  | Raise e => Raise e
  end.

End Paginator.

(** [MultipleObjectMixin.paginate_queryset]: a missing [page] means page 1,
    [last] means the last page, other text is a 404, and so is a page the
    paginator refuses. *)
Definition paginate_queryset (queryset : list AnnotatedPost)
    (page_size : nat) (request : Request) : Result Page :=
  let paginator := Paginator.mk queryset page_size in
  let page_number :=
    match GET_page request with
    | PageAbsent => Ok 1%Z
    | PageInt n => Ok n
    | PageLast => Paginator.num_pages paginator
    | PageOther => Raise Http404
    end in
  match page_number with
  | Ok n =>
      match Paginator.page paginator (PageInt n) with
      | Ok page => Ok page
      | Raise PageNotAnInteger | Raise EmptyPage => Raise Http404
      | Raise e => Raise e
      end
  | Raise e => Raise e
  end.

(** [MultipleObjectMixin.get_context_data]: the list is paginated when
    [paginate_by] is set (non-zero), and passed whole otherwise. *)
Definition MultipleObjectMixin_get_context_data
    (queryset : list AnnotatedPost) (paginate_by : nat) (request : Request)
  : Result (list AnnotatedPost * option Page) :=
  if paginate_by =? 0 then Ok (queryset, None)
  else match paginate_queryset queryset paginate_by request with
       | Ok page => Ok (object_list page, Some page)
       | Raise e => Raise e
       end.

(* ================================================================== *)
(** ** Query sets *)

(** [order_by('-pub_date')]: latest first; rows with the same date keep
    their storage order. *)
Fixpoint insert_desc (p : Post.t) (l : list Post.t) : list Post.t :=
  match l with
  | [] => [p]
  | q :: l' =>
      if (Post.pub_date q <=? Post.pub_date p)%Z then p :: q :: l'
      else q :: insert_desc p l'
  end.

Definition order_by_pub_date_desc (l : list Post.t) : list Post.t :=
  fold_right insert_desc [] l.

(** [Count('comments')] for one post. *)
Definition comment_count (db : DB.t) (p : Post.t) : nat :=
  List.length (filter (fun c => Comment.post_id c =? Post.pk p) (DB.comments db)).

(** [annotate(comment_count=Count('comments'))] *)
Definition annotate (db : DB.t) (l : list Post.t) : list AnnotatedPost :=
  map (fun p => (p, comment_count db p)) l.

(** The row a post's [category] key joins to. *)
Definition category_of (db : DB.t) (p : Post.t) : option Category.t :=
  match Post.category p with
  | Some k => find (fun c => Category.pk c =? k) (DB.categories db)
  | None => None
  end.

(** The lookup [category__is_published=True]. *)
Definition category__is_published (db : DB.t) (p : Post.t) : bool :=
  match category_of db p with
  | Some c => Category.is_published c
  | None => false
  end.

(** The lookup [category__slug=s]. *)
Definition category__slug (db : DB.t) (s : string) (p : Post.t) : bool :=
  match category_of db p with
  | Some c => String.eqb (Category.slug c) s
  | None => false
  end.

(** [PostListView.get_queryset] *)
Definition PostListView_get_queryset (db : DB.t) (request : Request)
  : list AnnotatedPost :=
  filter
    (fun ap =>
       Post.is_published (fst ap)
       && category__is_published db (fst ap)
       && (Post.pub_date (fst ap) <=? now request)%Z)
    (annotate db (order_by_pub_date_desc (DB.posts db))).

(** [CategoryListView.get_queryset] *)
Definition CategoryListView_get_queryset (db : DB.t) (request : Request)
    (category_slug : string) : list AnnotatedPost :=
  filter
    (fun ap =>
       Post.is_published (fst ap)
       && category__is_published db (fst ap)
       && (Post.pub_date (fst ap) <=? now request)%Z
       && category__slug db category_slug (fst ap))
    (annotate db (order_by_pub_date_desc (DB.posts db))).

(** The posts [profile] hands to its paginator. *)
Definition profile_posts (db : DB.t) (profile : User.t)
  : list AnnotatedPost :=
  annotate db
    (order_by_pub_date_desc
       (filter (fun p => Post.author p =? User.pk profile) (DB.posts db))).

(* ================================================================== *)
(** ** Writing rows *)

(** The key given to a new row: one that no stored row has.  (The
    database's own sequence also passes over the keys of rows deleted
    since; what is stated below of a new key is that it is not in use.) *)
Definition next_pk (keys : list nat) : nat := S (list_max keys).

(** [save()] of a new row: the database assigns the key. *)
Definition Post_insert (p : Post.t) : View Post.t :=
  fun db =>
    let p' := Post.with_pk (next_pk (map Post.pk (DB.posts db))) p in
    (Ok p', DB.set_posts (DB.posts db ++ [p']) db).

(** [save()] of a stored row: the row of the same key is replaced. *)
Definition Post_update (p : Post.t) : View Post.t :=
  fun db =>
    (Ok p,
     DB.set_posts
       (map (fun q => if Post.pk q =? Post.pk p then p else q) (DB.posts db))
       db).

(** [delete()] of a post; its comments go with it. *)
Definition Post_delete (p : Post.t) : View unit :=
  modify (fun db =>
    DB.set_comments
      (filter (fun c => negb (Comment.post_id c =? Post.pk p))
              (DB.comments db))
      (DB.set_posts
         (filter (fun q => negb (Post.pk q =? Post.pk p)) (DB.posts db))
         db)).

Definition Comment_insert (c : Comment.t) : View Comment.t :=
  fun db =>
    let c' := Comment.with_pk (next_pk (map Comment.pk (DB.comments db))) c in
    (Ok c', DB.set_comments (DB.comments db ++ [c']) db).

Definition Comment_update (c : Comment.t) : View Comment.t :=
  fun db =>
    (Ok c,
     DB.set_comments
       (map (fun d => if Comment.pk d =? Comment.pk c then c else d)
            (DB.comments db))
       db).

Definition Comment_delete (c : Comment.t) : View unit :=
  modify (fun db =>
    DB.set_comments
      (filter (fun d => negb (Comment.pk d =? Comment.pk c))
              (DB.comments db))
      db).

Definition User_update (u : User.t) : View User.t :=
  fun db =>
    (Ok u,
     DB.set_users
       (map (fun v => if User.pk v =? User.pk u then u else v) (DB.users db))
       db).

(** [str(user)], as [reverse] receives it for a user key. *)
Definition username_of (db : DB.t) (k : nat) : string :=
  match find (fun u => User.pk u =? k) (DB.users db) with
  | Some u => User.username u
  | None => EmptyString
  end.

(* ================================================================== *)
(** ** Matching paths against [blog/urls.py] *)

(** A resolved URL: the name of the pattern that matched, with the keyword
    arguments its converters produced. *)
Inductive ResolverMatch : Set :=
| match_index
| match_post_detail (pk : nat)
| match_edit_post (pk : nat)
| match_create_post
| match_delete_post (pk : nat)
| match_category_posts (category_slug : string)
| match_profile (slug : string)
| match_edit_profile (slug : string)
| match_add_comment (pk : nat)
| match_edit_comment (post_id pk : nat)
| match_delete_comment (post_id pk : nat).

(** The character classes of the path converters: [[0-9]] for [int] and
    [[-a-zA-Z0-9_]] for [slug]. *)
Definition is_digit (c : ascii) : bool :=
  (48 <=? nat_of_ascii c) && (nat_of_ascii c <=? 57).

Definition is_slug_char (c : ascii) : bool :=
  is_digit c
  || ((97 <=? nat_of_ascii c) && (nat_of_ascii c <=? 122))
  || ((65 <=? nat_of_ascii c) && (nat_of_ascii c <=? 90))
  || (nat_of_ascii c =? 45)
  || (nat_of_ascii c =? 95).

(** The longest prefix made of characters of a class, and the rest. *)
Fixpoint span (f : ascii -> bool) (s : string) : string * string :=
  match s with
  | EmptyString => (EmptyString, EmptyString)
  | String c s' =>
      if f c
      then let (value, rest) := span f s' in (String c value, rest)
      else (EmptyString, s)
  end.

Fixpoint strip_prefix (literal s : string) : option string :=
  match literal with
  | EmptyString => Some s
  | String c literal' =>
      match s with
      | String d s' => if Ascii.eqb c d then strip_prefix literal' s' else None
      | EmptyString => None
      end
  end.

Fixpoint string_forall (f : ascii -> bool) (s : string) : bool :=
  match s with
  | EmptyString => true
  | String c s' => f c && string_forall f s'
  end.

(** The parts of a route given to [path()]: literal text, [<int:...>] and
    [<slug:...>]. *)
Inductive Part : Set :=
| Lit (text : string)
| IntConverter
| SlugConverter.

(** A route matches a whole path; the answer is the text each converter
    captured, in order.  A converter takes the longest run of its class,
    which is what the regular expression of the route does here, every
    converter of [blog/urls.py] being followed by a ["/"]. *)
Fixpoint match_route (route : list Part) (path : string)
  : option (list string) :=
  match route with
  | [] =>
      match path with
      | EmptyString => Some []
      | String _ _ => None
      end
  | Lit text :: route' =>
      match strip_prefix text path with
      | Some rest => match_route route' rest
      | None => None
      end
  | IntConverter :: route' =>
      let (value, rest) := span is_digit path in
      match value with
      | EmptyString => None
      | String _ _ => option_map (cons value) (match_route route' rest)
      end
  | SlugConverter :: route' =>
      let (value, rest) := span is_slug_char path in
      match value with
      | EmptyString => None
      | String _ _ => option_map (cons value) (match_route route' rest)
      end
  end.

(** [IntConverter.to_python], Python's [int] on a run of digits, and
    [IntConverter.to_url], Python's [str] on a natural number. *)
Definition int (digits : string) : nat :=
  match DecimalString.NilEmpty.uint_of_string digits with
  | Some d => Nat.of_uint d
  | None => 0
  end.

Definition str (n : nat) : string :=
  DecimalString.NilEmpty.string_of_uint (Nat.to_uint n).

(** [urlpatterns] of [blog/urls.py], in the order of the file: the route
    and the match it stands for, given what the converters captured. *)
Definition blog_urlpatterns
  : list (list Part * (list string -> option ResolverMatch)) :=
  [ ([],
     fun _ => Some match_index);
    ([Lit "posts/"; IntConverter; Lit "/"],
     fun kw => match kw with
               | [pk] => Some (match_post_detail (int pk))
               | _ => None
               end);
    ([Lit "posts/"; IntConverter; Lit "/edit/"],
     fun kw => match kw with
               | [pk] => Some (match_edit_post (int pk))
               | _ => None
               end);
    ([Lit "posts/create/"],
     fun _ => Some match_create_post);
    ([Lit "posts/"; IntConverter; Lit "/delete/"],
     fun kw => match kw with
               | [pk] => Some (match_delete_post (int pk))
               | _ => None
               end);
    ([Lit "category/"; SlugConverter; Lit "/"],
     fun kw => match kw with
               | [category_slug] => Some (match_category_posts category_slug)
               | _ => None
               end);
    ([Lit "profile/"; SlugConverter; Lit "/"],
     fun kw => match kw with
               | [slug] => Some (match_profile slug)
               | _ => None
               end);
    ([Lit "profile/"; SlugConverter; Lit "/edit/"],
     fun kw => match kw with
               | [slug] => Some (match_edit_profile slug)
               | _ => None
               end);
    ([Lit "posts/"; IntConverter; Lit "/comment/"],
     fun kw => match kw with
               | [pk] => Some (match_add_comment (int pk))
               | _ => None
               end);
    ([Lit "posts/"; IntConverter; Lit "/edit_comment/"; IntConverter;
      Lit "/"],
     fun kw => match kw with
               | [post_id; pk] => Some (match_edit_comment (int post_id) (int pk))
               | _ => None
               end);
    ([Lit "posts/"; IntConverter; Lit "/delete_comment/"; IntConverter;
      Lit "/"],
     fun kw => match kw with
               | [post_id; pk] =>
                   Some (match_delete_comment (int post_id) (int pk))
               | _ => None
               end) ].

(** The resolver: the first pattern that matches decides; [None] when none
    does. *)
Fixpoint resolve_in
    (patterns : list (list Part * (list string -> option ResolverMatch)))
    (path : string) : option ResolverMatch :=
  match patterns with
  | [] => None
  | (route, view) :: patterns' =>
      match match_route route path with
      | Some kw => view kw
      | None => resolve_in patterns' path
      end
  end.

Definition resolve (path : string) : option ResolverMatch :=
  resolve_in blog_urlpatterns path.

(** What the slug converter accepts. *)
Definition is_slug (s : string) : bool :=
  match s with
  | EmptyString => false
  | String _ _ => string_forall is_slug_char s
  end.

(** [reverse] of a pattern name with its keyword arguments; [None] when an
    argument does not fit its converter. *)
Definition reverse (m : ResolverMatch) : option string :=
  match m with
  | match_index => Some EmptyString
  | match_post_detail pk => Some ("posts/" ++ str pk ++ "/")
  | match_edit_post pk => Some ("posts/" ++ str pk ++ "/edit/")
  | match_create_post => Some "posts/create/"
  | match_delete_post pk => Some ("posts/" ++ str pk ++ "/delete/")
  | match_category_posts category_slug =>
      if is_slug category_slug
      then Some ("category/" ++ category_slug ++ "/")
      else None
  | match_profile slug =>
      if is_slug slug then Some ("profile/" ++ slug ++ "/") else None
  | match_edit_profile slug =>
      if is_slug slug then Some ("profile/" ++ slug ++ "/edit/") else None
  | match_add_comment pk => Some ("posts/" ++ str pk ++ "/comment/")
  | match_edit_comment post_id pk =>
      Some ("posts/" ++ str post_id ++ "/edit_comment/" ++ str pk ++ "/")
  | match_delete_comment post_id pk =>
      Some ("posts/" ++ str post_id ++ "/delete_comment/" ++ str pk ++ "/")
  end%string.

(** The redirect to [reverse_lazy('blog:profile', kwargs={'slug': ...})]:
    the lazy URL is built when the redirect is, and [reverse] raises
    [NoReverseMatch] for a name the [slug] converter does not accept. *)
Definition redirect_to_profile (slug : string) : View HttpResponse :=
  match reverse (match_profile slug) with
  | Some _ => ret (HttpResponseRedirect (blog_profile slug))
  | None => raise NoReverseMatch
  end.

(* ================================================================== *)
(** ** The views of [blog/views.py] *)

Section Views.

(** [constants.POSTS_PER_PAGE]: the page size is a parameter of the views,
    its value being set in [blogicum/constants.py]. *)
Variable POSTS_PER_PAGE : nat.

(** The model forms of [blog/forms.py], parameters of the views as well.
    A form is given the submitted data and the instance it edits
    ([None] when it creates one); it answers [None] when [is_valid()] is
    false, and otherwise the instance with the cleaned fields set. *)
Variable PostForm : FormData -> option Post.t -> option Post.t.
Variable CommentForm : FormData -> option Comment.t -> option Comment.t.
Variable UserForm : FormData -> User.t -> option User.t.

(** [Post.get_absolute_url], which [PostUpdateView] falls back on for its
    success URL; it belongs to [blog/models.py]. *)
Variable Post_get_absolute_url : Post.t -> Url.

(** *** UserUpdateView(LoginRequiredMixin, UpdateView) *)

Definition UserUpdateView_get_object (slug : string) : View User.t :=
  get_or_404 DB.users (fun u => String.eqb (User.username u) slug).

Definition UserUpdateView_get (slug : string) : View HttpResponse :=
  object <- UserUpdateView_get_object slug ;;
  ret (TemplateResponse "blog/user.html" (UserFormContext object)).

Definition UserUpdateView_post (request : Request) (slug : string)
  : View HttpResponse :=
  object <- UserUpdateView_get_object slug ;;
  match UserForm (POST_data request) object with
  | Some instance =>
      saved <- User_update
                 (User.mk (User.pk object) (User.username instance)
                    (User.first_name instance) (User.last_name instance)
                    (User.email instance)) ;;
      redirect_to_profile (User.username saved)
  | None =>
      ret (TemplateResponse "blog/user.html"
             (InvalidFormContext (POST_data request)))
  end.

Definition UserUpdateView_dispatch (request : Request) (slug : string)
  : View HttpResponse :=
  instance <- UserUpdateView_get_object slug ;;
  if negb (user_is (User.pk instance) (user request))
  then raise PermissionDenied
  else
    LoginRequiredMixin_dispatch request (blog_edit_profile slug)
      (View_dispatch request
         (mkHandlers
            (Some (UserUpdateView_get slug))
            (Some (UserUpdateView_post request slug))
            (Some (UserUpdateView_post request slug))
            None)).

(** *** CommentUpdateView(LoginRequiredMixin, UpdateView) *)

Definition Comment_get_object (pk : nat) : View Comment.t :=
  get_or_404 DB.comments (fun c => Comment.pk c =? pk).

Definition CommentUpdateView_get (pk : nat) : View HttpResponse :=
  object <- Comment_get_object pk ;;
  ret (TemplateResponse "blog/comment.html" (CommentFormContext object)).

Definition CommentUpdateView_post (request : Request) (pk : nat)
  : View HttpResponse :=
  object <- Comment_get_object pk ;;
  match CommentForm (POST_data request) (Some object) with
  | Some instance =>
      saved <- Comment_update (Comment.with_pk (Comment.pk object) instance) ;;
      ret (HttpResponseRedirect (blog_post_detail (Comment.post_id saved)))
  | None =>
      ret (TemplateResponse "blog/comment.html"
             (InvalidFormContext (POST_data request)))
  end.

Definition CommentUpdateView_dispatch (request : Request) (pk : nat)
  : View HttpResponse :=
  instance <- get_or_404 DB.comments (fun c => Comment.pk c =? pk) ;;
  if negb (user_is (Comment.author instance) (user request))
  then raise PermissionDenied
  else
    LoginRequiredMixin_dispatch request (blog_edit_comment pk)
      (View_dispatch request
         (mkHandlers
            (Some (CommentUpdateView_get pk))
            (Some (CommentUpdateView_post request pk))
            (Some (CommentUpdateView_post request pk))
            None)).

(** *** CommentDeleteView(LoginRequiredMixin, DeleteView) *)

Definition CommentDeleteView_get (pk : nat) : View HttpResponse :=
  object <- Comment_get_object pk ;;
  ret (TemplateResponse "blog/comment.html" (CommentFormContext object)).

Definition CommentDeleteView_delete (pk : nat) : View HttpResponse :=
  object <- Comment_get_object pk ;;
  let success_url := blog_post_detail (Comment.post_id object) in
  Comment_delete object ;;;
  ret (HttpResponseRedirect success_url).

Definition CommentDeleteView_dispatch (request : Request) (pk : nat)
  : View HttpResponse :=
  instance <- get_or_404 DB.comments (fun c => Comment.pk c =? pk) ;;
  if negb (user_is (Comment.author instance) (user request))
  then raise PermissionDenied
  else
    LoginRequiredMixin_dispatch request (blog_delete_comment pk)
      (View_dispatch request
         (mkHandlers
            (Some (CommentDeleteView_get pk))
            (Some (CommentDeleteView_delete pk))
            None
            (Some (CommentDeleteView_delete pk)))).

(** *** PostListView(ListView) *)

Definition PostListView_get (request : Request) : View HttpResponse :=
  queryset <- gets (fun db => PostListView_get_queryset db request) ;;
  context <- lift (MultipleObjectMixin_get_context_data
                     queryset POSTS_PER_PAGE request) ;;
  ret (TemplateResponse "blog/index.html"
         (ListContext (fst context) (snd context))).

Definition PostListView_dispatch (request : Request) : View HttpResponse :=
  View_dispatch request
    (mkHandlers (Some (PostListView_get request)) None None None).

(** *** PostDetailView(DetailView) *)

Definition Post_get_object (pk : nat) : View Post.t :=
  get_or_404 DB.posts (fun p => Post.pk p =? pk).

Definition PostDetailView_get (pk : nat) : View HttpResponse :=
  object <- Post_get_object pk ;;
  comments <- gets (fun db =>
                filter (fun c => Comment.post_id c =? Post.pk object)
                       (DB.comments db)) ;;
  ret (TemplateResponse "blog/detail.html" (DetailContext object comments)).

Definition PostDetailView_dispatch (request : Request) (pk : nat)
  : View HttpResponse :=
  View_dispatch request
    (mkHandlers (Some (PostDetailView_get pk)) None None None).

(** *** PostUpdateView(UpdateView, LoginRequiredMixin)

    [UpdateView] comes first among the bases, so the [dispatch] that
    follows the class's own is [View.dispatch]: the login mixin's
    [dispatch] is behind it and is never reached. *)

Definition PostUpdateView_get (pk : nat) : View HttpResponse :=
  object <- Post_get_object pk ;;
  ret (TemplateResponse "blog/create.html" (PostFormContext (Some object))).

Definition PostUpdateView_form_valid (request : Request)
    (object instance : Post.t) : View HttpResponse :=
  match user request with
  | Some k =>
      saved <- Post_update
                 (Post.with_author k (Post.with_pk (Post.pk object) instance)) ;;
      ret (HttpResponseRedirect (Post_get_absolute_url saved))
  | None => raise ValueError
  end.

Definition PostUpdateView_post (request : Request) (pk : nat)
  : View HttpResponse :=
  object <- Post_get_object pk ;;
  match PostForm (POST_data request) (Some object) with
  | Some instance => PostUpdateView_form_valid request object instance
  | None =>
      ret (TemplateResponse "blog/create.html"
             (InvalidFormContext (POST_data request)))
  end.

Definition PostUpdateView_dispatch (request : Request) (pk : nat)
  : View HttpResponse :=
  instance <- get_or_404 DB.posts (fun p => Post.pk p =? pk) ;;
  if negb (user_is (Post.author instance) (user request))
  then ret (HttpResponseRedirect (blog_post_detail pk))
  else
    View_dispatch request
      (mkHandlers
         (Some (PostUpdateView_get pk))
         (Some (PostUpdateView_post request pk))
         (Some (PostUpdateView_post request pk))
         None).

(** *** PostCreateView(LoginRequiredMixin, CreateView) *)

Definition PostCreateView_get : View HttpResponse :=
  ret (TemplateResponse "blog/create.html" (PostFormContext None)).

Definition PostCreateView_post (request : Request) : View HttpResponse :=
  match PostForm (POST_data request) None with
  | Some instance =>
      match user request with
      | Some k =>
          saved <- Post_insert (Post.with_author k instance) ;;
          slug <- gets (fun db => username_of db (Post.author saved)) ;;
          redirect_to_profile slug
      | None => raise ValueError
      end
  | None =>
      ret (TemplateResponse "blog/create.html"
             (InvalidFormContext (POST_data request)))
  end.

Definition PostCreateView_dispatch (request : Request)
  : View HttpResponse :=
  LoginRequiredMixin_dispatch request blog_create_post
    (View_dispatch request
       (mkHandlers
          (Some PostCreateView_get)
          (Some (PostCreateView_post request))
          (Some (PostCreateView_post request))
          None)).

(** *** PostDeleteView(DeletionMixin, PostUpdateView)

    [dispatch] is inherited from [PostUpdateView]; [post] and [delete]
    come from [DeletionMixin], and [put] calls [post]. *)

Definition DeletionMixin_delete (pk : nat) : View HttpResponse :=
  object <- Post_get_object pk ;;
  let success_url := blog_index in
  Post_delete object ;;;
  ret (HttpResponseRedirect success_url).

Definition PostDeleteView_dispatch (request : Request) (pk : nat)
  : View HttpResponse :=
  instance <- get_or_404 DB.posts (fun p => Post.pk p =? pk) ;;
  if negb (user_is (Post.author instance) (user request))
  then ret (HttpResponseRedirect (blog_post_detail pk))
  else
    View_dispatch request
      (mkHandlers
         (Some (PostUpdateView_get pk))
         (Some (DeletionMixin_delete pk))
         (Some (DeletionMixin_delete pk))
         (Some (DeletionMixin_delete pk))).

(** *** CategoryListView(ListView) *)

Definition CategoryListView_get (request : Request)
    (category_slug : string) : View HttpResponse :=
  queryset <- gets (fun db =>
                CategoryListView_get_queryset db request category_slug) ;;
  context <- lift (MultipleObjectMixin_get_context_data
                     queryset POSTS_PER_PAGE request) ;;
  category <- get_or_404 DB.categories
                (fun c => String.eqb (Category.slug c) category_slug
                          && Category.is_published c) ;;
  ret (TemplateResponse "blog/category.html"
         (CategoryContext category (fst context) (snd context))).

Definition CategoryListView_dispatch (request : Request)
    (category_slug : string) : View HttpResponse :=
  View_dispatch request
    (mkHandlers
       (Some (CategoryListView_get request category_slug)) None None None).

(** *** profile *)

Definition profile (request : Request) (slug : string)
  : View HttpResponse :=
  profile <- get_or_404 DB.users
               (fun u => String.eqb (User.username u) slug) ;;
  posts <- gets (fun db => profile_posts db profile) ;;
  let paginator := Paginator.mk posts POSTS_PER_PAGE in
  let page_number := GET_page request in
  page_obj <- lift (Paginator.get_page paginator page_number) ;;
  ret (TemplateResponse "blog/profile.html"
         (ProfileContext profile page_obj)).

(** *** add_comment, behind [login_required] *)

Definition add_comment (request : Request) (pk : nat)
  : View HttpResponse :=
  match user request with
  | None => ret (HttpResponseRedirect (login (blog_add_comment pk)))
  | Some k =>
      post <- get_or_404 DB.posts (fun p => Post.pk p =? pk) ;;
      match CommentForm (POST_data request) None with
      | Some comment =>
          Comment_insert
            (Comment.with_post (Post.pk post)
               (Comment.with_author k comment)) ;;;
          ret (HttpResponseRedirect (blog_post_detail pk))
      | None => ret (HttpResponseRedirect (blog_post_detail pk))
      end
  end.

End Views.

(* ================================================================== *)
(** ** Vocabulary of the specification *)

(** The posts a response lists: the [object_list] of a list view's context,
    or of the profile page; nothing for any other response. *)
Definition listed (r : Result HttpResponse) : list AnnotatedPost :=
  match r with
  | Ok (TemplateResponse _ (ListContext objects _)) => objects
  | Ok (TemplateResponse _ (CategoryContext _ objects _)) => objects
  | Ok (TemplateResponse _ (ProfileContext _ page_obj)) => object_list page_obj
  | _ => []
  end.

(** The visibility policy in the words of the specification:
    [is_published = true AND category.is_published = true AND
    pub_date <= now]. *)
Definition spec_visible (db : DB.t) (now : Z) (p : Post.t) : Prop :=
  Post.is_published p = true
  /\ (exists c, category_of db p = Some c /\ Category.is_published c = true)
  /\ (Post.pub_date p <= now)%Z.

(** The three ways the specification names of failing the policy. *)
Definition spec_hidden (db : DB.t) (now : Z) (p : Post.t) : Prop :=
  Post.is_published p = false
  \/ (exists c, category_of db p = Some c /\ Category.is_published c = false)
  \/ (now < Post.pub_date p)%Z.

(** Latest first. *)
Definition pub_date_desc (a b : AnnotatedPost) : Prop :=
  (Post.pub_date (fst b) <= Post.pub_date (fst a))%Z.

(* ================================================================== *)
(** ** A small database to run the handlers on *)

Module Sample.

Definition alice : User.t := User.mk 1 "alice" "Alice" "A" "alice@example.org".
Definition bob : User.t := User.mk 2 "bob" "Bob" "B" "bob@example.org".

Definition travel : Category.t :=
  Category.mk 1 "Travel" "travel" "Trips" true 0.
Definition drafts : Category.t :=
  Category.mk 2 "Drafts" "drafts" "Not yet" false 0.

(** Published, in a published category, dated in the past. *)
Definition post_public : Post.t :=
  Post.mk 1 "Rome" "..." 100 true 1 (Some 1) None 90.
(** Withdrawn by its author. *)
Definition post_unpublished : Post.t :=
  Post.mk 2 "Oslo" "..." 110 false 1 (Some 1) None 91.
(** In a category that is not published. *)
Definition post_in_drafts : Post.t :=
  Post.mk 3 "Lima" "..." 120 true 1 (Some 2) None 92.
(** Scheduled for later. *)
Definition post_scheduled : Post.t :=
  Post.mk 4 "Kyiv" "..." 900 true 1 (Some 1) None 93.
Definition post_of_bob : Post.t :=
  Post.mk 5 "Bonn" "..." 130 true 2 (Some 1) None 94.

Definition comment_of_bob : Comment.t := Comment.mk 1 "Nice" 2 1 150.
Definition comment_of_alice : Comment.t := Comment.mk 2 "Thanks" 1 1 160.

Definition db : DB.t :=
  DB.mk [alice; bob] [travel; drafts] []
    [post_public; post_unpublished; post_in_drafts; post_scheduled;
     post_of_bob]
    [comment_of_bob; comment_of_alice].

(** Requests served when the clock reads 500. *)
Definition request_of (u : option nat) (m : Method) (page : PageArg)
  : Request :=
  mkRequest u m [] page 500.

Definition anonymous_get : Request := request_of None GET PageAbsent.
Definition anonymous_post : Request := request_of None POST PageAbsent.
Definition alice_post : Request := request_of (Some 1) POST PageAbsent.
Definition bob_get : Request := request_of (Some 2) GET PageAbsent.
Definition bob_post : Request := request_of (Some 2) POST PageAbsent.

(** Forms that accept whatever is submitted and leave the fields of the
    edited instance as they are. *)
Definition PostForm (_ : FormData) (instance : option Post.t)
  : option Post.t :=
  match instance with
  | Some p => Some p
  | None => Some (Post.mk 0 "New" "..." 0 true 0 (Some 1) None 0)
  end.

Definition CommentForm (_ : FormData) (instance : option Comment.t)
  : option Comment.t :=
  match instance with
  | Some c => Some c
  | None => Some (Comment.mk 0 "New" 0 0 0)
  end.

Definition UserForm (_ : FormData) (instance : User.t) : option User.t :=
  Some instance.

Definition Post_get_absolute_url (p : Post.t) : Url :=
  blog_post_detail (Post.pk p).

End Sample.

(* ================================================================== *)
(** ** The views behind the patterns of [blog/urls.py] *)

Section Urls.

Variable POSTS_PER_PAGE : nat.
Variable PostForm : FormData -> option Post.t -> option Post.t.
Variable CommentForm : FormData -> option Comment.t -> option Comment.t.
Variable UserForm : FormData -> User.t -> option User.t.
Variable Post_get_absolute_url : Post.t -> Url.

(** [urlpatterns]: the view each pattern names, called with the request and
    the keyword arguments.  The comment views receive [post_id] and do not
    read it. *)
Definition urlpatterns (m : ResolverMatch) (request : Request)
  : View HttpResponse :=
  match m with
  | match_index => PostListView_dispatch POSTS_PER_PAGE request
  | match_post_detail pk => PostDetailView_dispatch request pk
  | match_edit_post pk =>
      PostUpdateView_dispatch PostForm Post_get_absolute_url request pk
  | match_create_post => PostCreateView_dispatch PostForm request
  | match_delete_post pk => PostDeleteView_dispatch request pk
  | match_category_posts category_slug =>
      CategoryListView_dispatch POSTS_PER_PAGE request category_slug
  | match_profile slug => profile POSTS_PER_PAGE request slug
  | match_edit_profile slug => UserUpdateView_dispatch UserForm request slug
  | match_add_comment pk => add_comment CommentForm request pk
  | match_edit_comment _ pk => CommentUpdateView_dispatch CommentForm request pk
  | match_delete_comment _ pk => CommentDeleteView_dispatch request pk
  end.

End Urls.

(** The request with another [page] parameter. *)
Definition with_page (page : PageArg) (request : Request) : Request :=
  mkRequest (user request) (method request) (POST_data request) page
    (now request).

(** The pages of a paginator, from the first to the last: what a client
    collects by asking for page 1, 2, ... in turn. *)
Definition all_pages (p : Paginator.t) : list (Result Page) :=
  match Paginator.num_pages p with
  | Ok np =>
      map (fun n => Paginator.page p (PageInt (Z.of_nat n)))
          (seq 1 (Z.to_nat np))
  | Raise e => [Raise e]
  end.

(** The items of a page, none for a page that was refused. *)
Definition page_items (r : Result Page) : list AnnotatedPost :=
  match r with
  | Ok pg => object_list pg
  | Raise _ => []
  end.

(* ================================================================== *)
(** ** Running a handler: basic facts *)

Lemma user_is_spec (k : nat) (u : option nat) :
  user_is k u = true <-> u = Some k.
Proof.
  destruct u as [k'|]; simpl.
  - rewrite Nat.eqb_eq. split; [intros ->; reflexivity | congruence].
  - split; discriminate.
Qed.

Lemma user_is_other (k : nat) (u : option nat) :
  u <> Some k -> user_is k u = false.
Proof.
  intros Hne. destruct (user_is k u) eqn:E; [|reflexivity].
  apply user_is_spec in E. contradiction.
Qed.

Lemma bind_get_or_404 {A B} (table : DB.t -> list A) (lookup : A -> bool)
    (k : A -> View B) (db : DB.t) (x : A) :
  get_object_or_404 (table db) lookup = Ok x ->
  bind (get_or_404 table lookup) k db = k x db.
Proof.
  intros H. unfold bind, get_or_404. rewrite H. reflexivity.
Qed.

Lemma bind_get_or_404_raise {A B} (table : DB.t -> list A)
    (lookup : A -> bool) (k : A -> View B) (db : DB.t) (e : Exn) :
  get_object_or_404 (table db) lookup = Raise e ->
  bind (get_or_404 table lookup) k db = (Raise e, db).
Proof.
  intros H. unfold bind, get_or_404. rewrite H. reflexivity.
Qed.

(** What [get_object_or_404] returns satisfies the lookup and is a row of
    the table. *)
Lemma get_object_or_404_ok {A} (objects : list A) (lookup : A -> bool) x :
  get_object_or_404 objects lookup = Ok x ->
  In x objects /\ lookup x = true.
Proof.
  unfold get_object_or_404.
  destruct (filter lookup objects) as [|y [|z l]] eqn:E; try discriminate.
  intros [= ->]. apply filter_In. rewrite E. left. reflexivity.
Qed.

(** No matching row: the lookup raises [Http404]. *)
Lemma get_object_or_404_none {A} (objects : list A) (lookup : A -> bool) :
  (forall x, In x objects -> lookup x = false) ->
  get_object_or_404 objects lookup = Raise Http404.
Proof.
  intros H. unfold get_object_or_404.
  destruct (filter lookup objects) as [|y l] eqn:E; [reflexivity|].
  assert (Hy : In y (filter lookup objects)) by (rewrite E; left; reflexivity).
  apply filter_In in Hy. destruct Hy as [Hin Hy].
  rewrite (H y Hin) in Hy. discriminate.
Qed.

(** The ownership guards, one lemma per handler; the theorems on ownership
    below are stated from these. *)
Section Guards.

Variable PostForm : FormData -> option Post.t -> option Post.t.
Variable CommentForm : FormData -> option Comment.t -> option Comment.t.
Variable UserForm : FormData -> User.t -> option User.t.
Variable Post_get_absolute_url : Post.t -> Url.
Variables (db : DB.t) (request : Request).

Lemma PostUpdateView_not_author pk p :
  get_object_or_404 (DB.posts db) (fun q => Post.pk q =? pk) = Ok p ->
  user request <> Some (Post.author p) ->
  PostUpdateView_dispatch PostForm Post_get_absolute_url request pk db
  = (Ok (HttpResponseRedirect (blog_post_detail pk)), db).
Proof.
  intros Hget Hne. unfold PostUpdateView_dispatch.
  rewrite (bind_get_or_404 DB.posts _ _ db Hget).
  rewrite (user_is_other Hne). reflexivity.
Qed.

Lemma PostDeleteView_not_author pk p :
  get_object_or_404 (DB.posts db) (fun q => Post.pk q =? pk) = Ok p ->
  user request <> Some (Post.author p) ->
  PostDeleteView_dispatch request pk db
  = (Ok (HttpResponseRedirect (blog_post_detail pk)), db).
Proof.
  intros Hget Hne. unfold PostDeleteView_dispatch.
  rewrite (bind_get_or_404 DB.posts _ _ db Hget).
  rewrite (user_is_other Hne). reflexivity.
Qed.

Lemma CommentUpdateView_not_author pk c :
  get_object_or_404 (DB.comments db) (fun d => Comment.pk d =? pk) = Ok c ->
  user request <> Some (Comment.author c) ->
  CommentUpdateView_dispatch CommentForm request pk db
  = (Raise PermissionDenied, db).
Proof.
  intros Hget Hne. unfold CommentUpdateView_dispatch.
  rewrite (bind_get_or_404 DB.comments _ _ db Hget).
  rewrite (user_is_other Hne). reflexivity.
Qed.

Lemma CommentDeleteView_not_author pk c :
  get_object_or_404 (DB.comments db) (fun d => Comment.pk d =? pk) = Ok c ->
  user request <> Some (Comment.author c) ->
  CommentDeleteView_dispatch request pk db = (Raise PermissionDenied, db).
Proof.
  intros Hget Hne. unfold CommentDeleteView_dispatch.
  rewrite (bind_get_or_404 DB.comments _ _ db Hget).
  rewrite (user_is_other Hne). reflexivity.
Qed.

Lemma UserUpdateView_not_owner slug u :
  get_object_or_404 (DB.users db)
    (fun v => String.eqb (User.username v) slug) = Ok u ->
  user request <> Some (User.pk u) ->
  UserUpdateView_dispatch UserForm request slug db
  = (Raise PermissionDenied, db).
Proof.
  intros Hget Hne. unfold UserUpdateView_dispatch, UserUpdateView_get_object.
  rewrite (bind_get_or_404 DB.users _ _ db Hget).
  rewrite (user_is_other Hne). reflexivity.
Qed.

End Guards.

(* ================================================================== *)
(** ** Ownership of posts, comments and profiles *)

(** C3. For every Post and every edit or delete request on it by a user who
    is not the Post's author (anonymous users included), the request is
    denied, here by a redirect to the Post's detail page, and the database,
    hence the Post, is left as it was.  A run that changes the Post is
    therefore a run for its authenticated author. *)
Theorem C3_post_edit_delete_denied_to_non_author :
  forall (PostForm : FormData -> option Post.t -> option Post.t)
         (Post_get_absolute_url : Post.t -> Url)
         (db : DB.t) (request : Request) (pk : nat) (p : Post.t),
    get_object_or_404 (DB.posts db) (fun q => Post.pk q =? pk) = Ok p ->
    user request <> Some (Post.author p) ->
    PostUpdateView_dispatch PostForm Post_get_absolute_url request pk db
    = (Ok (HttpResponseRedirect (blog_post_detail pk)), db)
    /\ PostDeleteView_dispatch request pk db
       = (Ok (HttpResponseRedirect (blog_post_detail pk)), db).
Proof.
  intros PostForm url db request pk p Hget Hne. split.
  - exact (PostUpdateView_not_author PostForm url db request pk Hget Hne).
  - exact (PostDeleteView_not_author db request pk Hget Hne).
Qed.

Lemma C3_witness :
  PostUpdateView_dispatch Sample.PostForm Sample.Post_get_absolute_url
    Sample.bob_post 1 Sample.db
  = (Ok (HttpResponseRedirect (blog_post_detail 1)), Sample.db)
  /\ PostDeleteView_dispatch Sample.bob_post 1 Sample.db
     = (Ok (HttpResponseRedirect (blog_post_detail 1)), Sample.db).
Proof.
  apply (C3_post_edit_delete_denied_to_non_author
           Sample.PostForm Sample.Post_get_absolute_url
           Sample.db Sample.bob_post 1 (p := Sample.post_public)).
  - reflexivity.
  - simpl. discriminate.
Defined.

(** The other half of the rule, on the sample database: the author's own
    delete request goes through, and removes the post and its comments. *)
Example author_deletes_own_post :
  let (response, db') := PostDeleteView_dispatch Sample.alice_post 1 Sample.db in
  response = Ok (HttpResponseRedirect blog_index)
  /\ map Post.pk (DB.posts db') = [2; 3; 4; 5]
  /\ DB.comments db' = [].
Proof. repeat split. Qed.

(** A change of the database by the edit or the delete handler of a post
    needs the post's author as the requester. *)
Lemma post_mutation_requires_author
    (PostForm : FormData -> option Post.t -> option Post.t)
    (Post_get_absolute_url : Post.t -> Url)
    (db : DB.t) (request : Request) (pk : nat) :
  snd (PostUpdateView_dispatch PostForm Post_get_absolute_url request pk db)
    <> db
  \/ snd (PostDeleteView_dispatch request pk db) <> db ->
  exists p,
    get_object_or_404 (DB.posts db) (fun q => Post.pk q =? pk) = Ok p
    /\ user request = Some (Post.author p).
Proof.
  intros H.
  destruct (get_object_or_404 (DB.posts db) (fun q => Post.pk q =? pk))
    as [p|e] eqn:Hget.
  - exists p. split; [reflexivity|].
    destruct (user_is (Post.author p) (user request)) eqn:Hu.
    + now apply user_is_spec.
    + exfalso.
      assert (Hne : user request <> Some (Post.author p)).
      { intros Heq. apply user_is_spec in Heq. congruence. }
      destruct H as [H|H]; apply H.
      * now rewrite (PostUpdateView_not_author PostForm Post_get_absolute_url
                       db request pk Hget Hne).
      * now rewrite (PostDeleteView_not_author db request pk Hget Hne).
  - exfalso. destruct H as [H|H]; apply H.
    + unfold PostUpdateView_dispatch.
      now rewrite (bind_get_or_404_raise DB.posts _ _ db Hget).
    + unfold PostDeleteView_dispatch.
      now rewrite (bind_get_or_404_raise DB.posts _ _ db Hget).
Qed.

(** C4. For every Comment and every edit or delete request on it by a user
    who is not the Comment's author, [PermissionDenied] is raised, which the
    client sees as status 403, and the database, hence the Comment, is left
    as it was. *)
Theorem C4_comment_edit_delete_forbidden_to_non_author :
  forall (CommentForm : FormData -> option Comment.t -> option Comment.t)
         (db : DB.t) (request : Request) (pk : nat) (c : Comment.t),
    get_object_or_404 (DB.comments db) (fun d => Comment.pk d =? pk) = Ok c ->
    user request <> Some (Comment.author c) ->
    (CommentUpdateView_dispatch CommentForm request pk db
     = (Raise PermissionDenied, db)
     /\ status_code (fst (CommentUpdateView_dispatch CommentForm request pk db))
        = 403%Z)
    /\ (CommentDeleteView_dispatch request pk db = (Raise PermissionDenied, db)
        /\ status_code (fst (CommentDeleteView_dispatch request pk db))
           = 403%Z).
Proof.
  intros CommentForm db request pk c Hget Hne.
  rewrite (CommentUpdateView_not_author CommentForm db request pk Hget Hne).
  rewrite (CommentDeleteView_not_author db request pk Hget Hne).
  repeat split.
Qed.

Lemma C4_witness :
  (CommentUpdateView_dispatch Sample.CommentForm Sample.alice_post 1 Sample.db
   = (Raise PermissionDenied, Sample.db)
   /\ status_code
        (fst (CommentUpdateView_dispatch Sample.CommentForm
                Sample.alice_post 1 Sample.db)) = 403%Z)
  /\ (CommentDeleteView_dispatch Sample.alice_post 1 Sample.db
      = (Raise PermissionDenied, Sample.db)
      /\ status_code
           (fst (CommentDeleteView_dispatch Sample.alice_post 1 Sample.db))
         = 403%Z).
Proof.
  apply (C4_comment_edit_delete_forbidden_to_non_author
           Sample.CommentForm Sample.db Sample.alice_post 1
           (c := Sample.comment_of_bob)).
  - reflexivity.
  - simpl. discriminate.
Defined.

(** The author's own requests go through: the edit is saved and the delete
    removes the comment. *)
Example author_deletes_own_comment :
  let (response, db') :=
    CommentDeleteView_dispatch Sample.bob_post 1 Sample.db in
  response = Ok (HttpResponseRedirect (blog_post_detail 1))
  /\ DB.comments db' = [Sample.comment_of_alice].
Proof. repeat split. Qed.

(** C5, as stated, fails on the post handlers: bob, who is not the author of
    post 1, asks to edit it and to delete it, and is answered with a
    redirect (status 302), not with status 403. *)
Lemma C5_counterexample :
  get_object_or_404 (DB.posts Sample.db) (fun q => Post.pk q =? 1)
  = Ok Sample.post_public
  /\ user Sample.bob_post <> Some (Post.author Sample.post_public)
  /\ status_code
       (fst (PostUpdateView_dispatch Sample.PostForm
               Sample.Post_get_absolute_url Sample.bob_post 1 Sample.db))
     <> 403%Z
  /\ status_code (fst (PostDeleteView_dispatch Sample.bob_post 1 Sample.db))
     <> 403%Z.
Proof.
  split; [reflexivity|]. split; [simpl; discriminate|].
  split; vm_compute; discriminate.
Qed.

(** C5, amended.  An unauthorized mutation attempt (the requester is not the
    record's author) raises [PermissionDenied], status 403, in the Comment
    edit and Comment delete handlers; in the Post edit and Post delete
    handlers it raises nothing and is answered by a redirect, status 302, to
    the Post's detail page. *)
Theorem C5_unauthorized_mutation_403_for_comments_302_for_posts :
  forall (PostForm : FormData -> option Post.t -> option Post.t)
         (CommentForm : FormData -> option Comment.t -> option Comment.t)
         (Post_get_absolute_url : Post.t -> Url)
         (db : DB.t) (request : Request),
    (forall pk c,
        get_object_or_404 (DB.comments db) (fun d => Comment.pk d =? pk) = Ok c ->
        user request <> Some (Comment.author c) ->
        fst (CommentUpdateView_dispatch CommentForm request pk db)
        = Raise PermissionDenied
        /\ fst (CommentDeleteView_dispatch request pk db)
           = Raise PermissionDenied)
    /\ (forall pk p,
           get_object_or_404 (DB.posts db) (fun q => Post.pk q =? pk) = Ok p ->
           user request <> Some (Post.author p) ->
           fst (PostUpdateView_dispatch PostForm Post_get_absolute_url
                  request pk db)
           = Ok (HttpResponseRedirect (blog_post_detail pk))
           /\ fst (PostDeleteView_dispatch request pk db)
              = Ok (HttpResponseRedirect (blog_post_detail pk))).
Proof.
  intros PostForm CommentForm url db request. split.
  - intros pk c Hget Hne.
    rewrite (CommentUpdateView_not_author CommentForm db request pk Hget Hne).
    rewrite (CommentDeleteView_not_author db request pk Hget Hne).
    split; reflexivity.
  - intros pk p Hget Hne.
    rewrite (PostUpdateView_not_author PostForm url db request pk Hget Hne).
    rewrite (PostDeleteView_not_author db request pk Hget Hne).
    split; reflexivity.
Qed.

Lemma C5_witness :
  (fst (CommentUpdateView_dispatch Sample.CommentForm Sample.bob_post 2
          Sample.db) = Raise PermissionDenied
   /\ fst (CommentDeleteView_dispatch Sample.bob_post 2 Sample.db)
      = Raise PermissionDenied)
  /\ (fst (PostUpdateView_dispatch Sample.PostForm
             Sample.Post_get_absolute_url Sample.bob_post 1 Sample.db)
      = Ok (HttpResponseRedirect (blog_post_detail 1))
      /\ fst (PostDeleteView_dispatch Sample.bob_post 1 Sample.db)
         = Ok (HttpResponseRedirect (blog_post_detail 1))).
Proof.
  destruct (C5_unauthorized_mutation_403_for_comments_302_for_posts
              Sample.PostForm Sample.CommentForm Sample.Post_get_absolute_url
              Sample.db Sample.bob_post) as [Hcomment Hpost].
  split.
  - apply (Hcomment 2 Sample.comment_of_alice).
    + reflexivity.
    + simpl. discriminate.
  - apply (Hpost 1 Sample.post_public).
    + reflexivity.
    + simpl. discriminate.
Defined.

(** C10. For every user profile and every requester other than the user
    the profile belongs to, the profile-edit handler raises
    [PermissionDenied] (status 403) before anything else is done, and the
    database, hence the profile, is left as it was: the handler goes on to
    the form only when the target user equals the requesting user. *)
Theorem C10_profile_edit_only_by_owner :
  forall (UserForm : FormData -> User.t -> option User.t)
         (db : DB.t) (request : Request) (slug : string) (u : User.t),
    get_object_or_404 (DB.users db)
      (fun v => String.eqb (User.username v) slug) = Ok u ->
    user request <> Some (User.pk u) ->
    UserUpdateView_dispatch UserForm request slug db
    = (Raise PermissionDenied, db)
    /\ status_code (fst (UserUpdateView_dispatch UserForm request slug db))
       = 403%Z.
Proof.
  intros UserForm db request slug u Hget Hne.
  rewrite (UserUpdateView_not_owner UserForm db request slug Hget Hne).
  split; reflexivity.
Qed.

Lemma C10_witness :
  UserUpdateView_dispatch Sample.UserForm Sample.bob_post "alice" Sample.db
  = (Raise PermissionDenied, Sample.db)
  /\ status_code
       (fst (UserUpdateView_dispatch Sample.UserForm Sample.bob_post
               "alice" Sample.db)) = 403%Z.
Proof.
  apply (C10_profile_edit_only_by_owner Sample.UserForm Sample.db
           Sample.bob_post "alice" (u := Sample.alice)).
  - reflexivity.
  - simpl. discriminate.
Defined.

(** Read the other way: an answer other than [PermissionDenied] means that
    the requester is the profile's user. *)
Lemma profile_edit_proceeds_only_for_owner
    (UserForm : FormData -> User.t -> option User.t)
    (db : DB.t) (request : Request) (slug : string) (u : User.t) :
  get_object_or_404 (DB.users db)
    (fun v => String.eqb (User.username v) slug) = Ok u ->
  fst (UserUpdateView_dispatch UserForm request slug db)
    <> Raise PermissionDenied ->
  user request = Some (User.pk u).
Proof.
  intros Hget Hgo.
  destruct (user_is (User.pk u) (user request)) eqn:Hu.
  - now apply user_is_spec.
  - exfalso. apply Hgo.
    rewrite (UserUpdateView_not_owner UserForm db request slug (u := u));
      [reflexivity | exact Hget |].
    intros Heq. apply user_is_spec in Heq. congruence.
Qed.

(** The owner's own request goes through and is saved. *)
Example owner_edits_own_profile :
  UserUpdateView_dispatch Sample.UserForm Sample.alice_post "alice" Sample.db
  = (Ok (HttpResponseRedirect (blog_profile "alice")), Sample.db).
Proof. reflexivity. Qed.

(** C8. For every request to create a Post by an unauthenticated user, the
    answer is a redirect to the login page and the database is left as it
    was: no Post is created. *)
Theorem C8_post_create_requires_login :
  forall (PostForm : FormData -> option Post.t -> option Post.t)
         (db : DB.t) (request : Request),
    user request = None ->
    PostCreateView_dispatch PostForm request db
    = (Ok (HttpResponseRedirect (login blog_create_post)), db)
    /\ DB.posts (snd (PostCreateView_dispatch PostForm request db))
       = DB.posts db.
Proof.
  intros PostForm db request Hanon.
  unfold PostCreateView_dispatch, LoginRequiredMixin_dispatch.
  rewrite Hanon. split; reflexivity.
Qed.

Lemma C8_witness :
  PostCreateView_dispatch Sample.PostForm Sample.anonymous_post Sample.db
  = (Ok (HttpResponseRedirect (login blog_create_post)), Sample.db)
  /\ DB.posts (snd (PostCreateView_dispatch Sample.PostForm
                      Sample.anonymous_post Sample.db))
     = DB.posts Sample.db.
Proof.
  apply (C8_post_create_requires_login Sample.PostForm Sample.db
           Sample.anonymous_post).
  reflexivity.
Defined.

(** With a login, the same request creates the post. *)
Example authenticated_user_creates_post :
  let (response, db') :=
    PostCreateView_dispatch Sample.PostForm Sample.bob_post Sample.db in
  response = Ok (HttpResponseRedirect (blog_profile "bob"))
  /\ map (fun p => (Post.pk p, Post.author p)) (DB.posts db')
     = [(1, 1); (2, 1); (3, 1); (4, 1); (5, 2); (6, 2)].
Proof. repeat split. Qed.

(* ================================================================== *)
(** ** Slices and pages *)

Lemma slice_incl {A} (bottom top : nat) (l : list A) :
  incl (Paginator.slice bottom top l) l.
Proof.
  intros x Hx. unfold Paginator.slice in Hx.
  rewrite <- (firstn_skipn bottom l). apply in_or_app. right.
  rewrite <- (firstn_skipn (top - bottom) (skipn bottom l)).
  apply in_or_app. left. exact Hx.
Qed.

Lemma slice_length {A} (bottom top : nat) (l : list A) :
  List.length (Paginator.slice bottom top l) <= top - bottom.
Proof. unfold Paginator.slice. apply firstn_le_length. Qed.

Lemma slice_nth {A} (bottom top i : nat) (l : list A) (d : A) :
  bottom <= i < top -> top <= List.length l ->
  In (nth i l d) (Paginator.slice bottom top l).
Proof.
  intros [Hlo Hhi] Hlen. unfold Paginator.slice.
  replace (nth i l d)
    with (nth (i - bottom) (firstn (top - bottom) (skipn bottom l)) d).
  - apply nth_In. rewrite length_firstn, length_skipn. lia.
  - rewrite nth_firstn.
    destruct (Nat.ltb_spec (i - bottom) (top - bottom)); [|lia].
    rewrite nth_skipn. f_equal. lia.
Qed.

(** The number of pages is at least one once the page size is set. *)
Lemma num_pages_ok (p : Paginator.t) :
  0 < Paginator.per_page p ->
  exists np, Paginator.num_pages p = Ok np /\ (1 <= np)%Z.
Proof.
  intros Hk. unfold Paginator.num_pages.
  destruct (Nat.eqb_spec (Paginator.per_page p) 0) as [E|_]; [lia|].
  eexists. split; [reflexivity|].
  assert (1 <= (Nat.max 1 (Paginator.count p) + Paginator.per_page p - 1)
               / Paginator.per_page p); [|lia].
  apply Nat.div_le_lower_bound; lia.
Qed.

(** What [page] returns is the slice of its number, and holds at most
    [per_page] items, all of them items of the paginator. *)
Lemma page_ok (p : Paginator.t) (arg : PageArg) (pg : Page) :
  Paginator.page p arg = Ok pg ->
  Paginator.validate_number p arg = Ok (number pg)
  /\ object_list pg
     = Paginator.slice
         (Z.to_nat (number pg - 1) * Paginator.per_page p)
         (Nat.min (Paginator.count p)
            (Z.to_nat (number pg - 1) * Paginator.per_page p
             + Paginator.per_page p))
         (Paginator.objects p).
Proof.
  unfold Paginator.page.
  destruct (Paginator.validate_number p arg) as [n|e]; [|discriminate].
  intros [= <-]. simpl. split; [reflexivity|].
  f_equal.
  destruct (Nat.leb_spec (Paginator.count p)
              (Z.to_nat (n - 1) * Paginator.per_page p + Paginator.per_page p));
    lia.
Qed.

Lemma page_length (p : Paginator.t) (arg : PageArg) (pg : Page) :
  Paginator.page p arg = Ok pg ->
  List.length (object_list pg) <= Paginator.per_page p.
Proof.
  intros H. apply page_ok in H. destruct H as [_ ->].
  etransitivity; [apply slice_length|]. lia.
Qed.

Lemma page_incl (p : Paginator.t) (arg : PageArg) (pg : Page) :
  Paginator.page p arg = Ok pg ->
  incl (object_list pg) (Paginator.objects p).
Proof.
  intros H. apply page_ok in H. destruct H as [_ ->]. apply slice_incl.
Qed.

(** [get_page] ends in a call of [page] whatever it is given. *)
Lemma get_page_is_page (p : Paginator.t) (arg : PageArg) (pg : Page) :
  Paginator.get_page p arg = Ok pg ->
  exists n, Paginator.page p (PageInt n) = Ok pg.
Proof.
  unfold Paginator.get_page.
  destruct (Paginator.validate_number p arg) as [n|e].
  - intros H. now exists n.
  - destruct e; try discriminate.
    + intros H. now exists 1%Z.
    + destruct (Paginator.num_pages p) as [np|e]; [|discriminate].
      intros H. now exists np.
Qed.


(** A list view's context lists items of its query set, and at most a
    page of them when a page size is set. *)
Lemma context_incl (queryset : list AnnotatedPost) (paginate_by : nat)
    (request : Request) objects page_obj :
  MultipleObjectMixin_get_context_data queryset paginate_by request
  = Ok (objects, page_obj) ->
  incl objects queryset.
Proof.
  unfold MultipleObjectMixin_get_context_data, paginate_queryset.
  destruct (paginate_by =? 0).
  - intros [= <- _]. apply incl_refl.
  - destruct (match GET_page request with
              | PageAbsent => _ | PageInt n => _
              | PageLast => _ | PageOther => _ end) as [n|e];
      [|discriminate].
    destruct (Paginator.page _ _) as [pg|e] eqn:Hpage.
    + intros [= <- _]. exact (page_incl _ _ Hpage).
    + destruct e; discriminate.
Qed.

Lemma context_length (queryset : list AnnotatedPost) (paginate_by : nat)
    (request : Request) objects page_obj :
  0 < paginate_by ->
  MultipleObjectMixin_get_context_data queryset paginate_by request
  = Ok (objects, page_obj) ->
  List.length objects <= paginate_by.
Proof.
  intros Hk.
  unfold MultipleObjectMixin_get_context_data, paginate_queryset.
  destruct (Nat.eqb_spec paginate_by 0) as [E|_]; [lia|].
  destruct (match GET_page request with
            | PageAbsent => _ | PageInt n => _
            | PageLast => _ | PageOther => _ end) as [n|e];
    [|discriminate].
  destruct (Paginator.page _ _) as [pg|e] eqn:Hpage.
  - intros [= <- _]. exact (page_length _ _ Hpage).
  - destruct e; discriminate.
Qed.

(** Pagination of a list view either succeeds or is a 404. *)
Lemma context_ok_or_404 (queryset : list AnnotatedPost) (paginate_by : nat)
    (request : Request) :
  (exists c, MultipleObjectMixin_get_context_data queryset paginate_by request
             = Ok c)
  \/ MultipleObjectMixin_get_context_data queryset paginate_by request
     = Raise Http404.
Proof.
  unfold MultipleObjectMixin_get_context_data.
  destruct (Nat.eqb_spec paginate_by 0) as [E|Hk]; [left; eauto|].
  assert (Hpos : 0 < Paginator.per_page (Paginator.mk queryset paginate_by))
    by (simpl; lia).
  destruct (num_pages_ok _ Hpos) as (np & Hnp & Hge).
  assert (Hpage : forall n,
            (exists pg, Paginator.page (Paginator.mk queryset paginate_by)
                          (PageInt n) = Ok pg)
            \/ Paginator.page (Paginator.mk queryset paginate_by) (PageInt n)
               = Raise EmptyPage).
  { intros n. unfold Paginator.page, Paginator.validate_number.
    rewrite Hnp. destruct (n <? 1)%Z; [now right|].
    destruct (np <? n)%Z; [now right | left; eauto]. }
  unfold paginate_queryset.
  destruct (GET_page request) as [|n| |].
  - destruct (Hpage 1%Z) as [[pg ->]| ->]; [left; eauto | now right].
  - destruct (Hpage n) as [[pg ->]| ->]; [left; eauto | now right].
  - rewrite Hnp.
    destruct (Hpage np) as [[pg ->]| ->]; [left; eauto | now right].
  - now right.
Qed.

(* ================================================================== *)
(** ** The public listings *)

Lemma filter_none {A} (f : A -> bool) (l : list A) :
  (forall x, In x l -> f x = false) -> filter f l = [].
Proof.
  induction l as [|a l IH]; intros H; simpl; [reflexivity|].
  rewrite (H a (or_introl eq_refl)). apply IH.
  intros x Hx. apply H. now right.
Qed.

Lemma filter_filter {A} (f g : A -> bool) (l : list A) :
  filter g (filter f l) = filter (fun x => f x && g x) l.
Proof.
  induction l as [|a l IH]; simpl; [reflexivity|].
  destruct (f a); simpl; [destruct (g a)|]; now rewrite IH.
Qed.

(** Every row of the home query set passes the visibility policy. *)
Lemma PostListView_queryset_visible db request ap :
  In ap (PostListView_get_queryset db request) ->
  spec_visible db (now request) (fst ap).
Proof.
  unfold PostListView_get_queryset. intros H.
  apply filter_In in H. destruct H as [_ H].
  apply andb_true_iff in H. destruct H as [H Hdate].
  apply andb_true_iff in H. destruct H as [Hpub Hcat].
  unfold category__is_published in Hcat.
  repeat split.
  - exact Hpub.
  - destruct (category_of db (fst ap)) as [c|]; [eauto | discriminate].
  - now apply Z.leb_le.
Qed.

(** The category query set is the home query set narrowed to the slug. *)
Lemma CategoryListView_queryset_narrows db request category_slug :
  CategoryListView_get_queryset db request category_slug
  = filter (fun ap => category__slug db category_slug (fst ap))
      (PostListView_get_queryset db request).
Proof.
  unfold CategoryListView_get_queryset, PostListView_get_queryset.
  now rewrite filter_filter.
Qed.

Lemma CategoryListView_queryset_visible db request category_slug ap :
  In ap (CategoryListView_get_queryset db request category_slug) ->
  spec_visible db (now request) (fst ap).
Proof.
  rewrite CategoryListView_queryset_narrows. intros H.
  apply filter_In in H. destruct H as [H _].
  now apply PostListView_queryset_visible.
Qed.

(** What the home page lists comes from its query set. *)
Lemma PostListView_listed_incl per_page db request :
  incl (listed (fst (PostListView_dispatch per_page request db)))
       (PostListView_get_queryset db request).
Proof.
  unfold PostListView_dispatch, View_dispatch.
  destruct (method request); simpl; try (intros x []);
    unfold PostListView_get, bind, gets, lift;
    destruct (MultipleObjectMixin_get_context_data _ _ _)
      as [[objects page_obj]|e] eqn:E; simpl;
    solve [ intros x [] | exact (context_incl _ _ _ E) ].
Qed.

(** What a category page lists comes from its query set. *)
Lemma CategoryListView_listed_incl per_page db request category_slug :
  incl (listed (fst (CategoryListView_dispatch per_page request
                       category_slug db)))
       (CategoryListView_get_queryset db request category_slug).
Proof.
  unfold CategoryListView_dispatch, View_dispatch.
  destruct (method request); simpl; try (intros x []);
    unfold CategoryListView_get, bind, gets, lift, get_or_404;
    destruct (MultipleObjectMixin_get_context_data _ _ _)
      as [[objects page_obj]|e] eqn:E; simpl;
    try (intros x []);
    destruct (get_object_or_404 _ _) as [c|e]; simpl;
    solve [ intros x [] | exact (context_incl _ _ _ E) ].
Qed.

Lemma visible_not_hidden db now p :
  spec_visible db now p -> spec_hidden db now p -> False.
Proof.
  intros (Hpub & (c & Hc & Hcpub) & Hdate) [H|[(c' & Hc' & Hhid)|H]].
  - congruence.
  - rewrite Hc in Hc'. injection Hc' as <-. congruence.
  - lia.
Qed.

(** C1. For every Post, the home listing and the category listing leave it
    out whenever its [is_published] is false, or its Category's
    [is_published] is false, or its [pub_date] is strictly in the future;
    put the other way, a Post that either listing shows has
    [is_published = true], a category with [is_published = true] and
    [pub_date <= now]. *)
Theorem C1_public_listings_exclude_hidden_posts :
  forall (POSTS_PER_PAGE : nat) (db : DB.t) (request : Request)
         (category_slug : string) (p : Post.t),
    (spec_hidden db (now request) p ->
     ~ In p (map fst (listed (fst (PostListView_dispatch POSTS_PER_PAGE
                                     request db))))
     /\ ~ In p (map fst (listed (fst (CategoryListView_dispatch
                                        POSTS_PER_PAGE request category_slug
                                        db)))))
    /\ (In p (map fst (listed (fst (PostListView_dispatch POSTS_PER_PAGE
                                      request db))))
        \/ In p (map fst (listed (fst (CategoryListView_dispatch
                                         POSTS_PER_PAGE request category_slug
                                         db)))) ->
        spec_visible db (now request) p).
Proof.
  intros k db request slug p.
  assert (Hshown :
            In p (map fst (listed (fst (PostListView_dispatch k request db))))
            \/ In p (map fst (listed (fst (CategoryListView_dispatch k request
                                             slug db)))) ->
            spec_visible db (now request) p).
  { intros [Hin|Hin];
      apply in_map_iff in Hin; destruct Hin as (ap & <- & Hin).
    - apply PostListView_queryset_visible.
      exact (PostListView_listed_incl k db request ap Hin).
    - apply (CategoryListView_queryset_visible db request slug).
      exact (CategoryListView_listed_incl k db request slug ap Hin). }
  split; [|exact Hshown].
  intros Hhid.
  split; intros Hin;
    apply (visible_not_hidden (db := db) (now := now request) (p := p));
    auto.
Qed.

Lemma C1_witness :
  (~ In Sample.post_scheduled
       (map fst (listed (fst (PostListView_dispatch 10 Sample.anonymous_get
                                Sample.db))))
   /\ ~ In Sample.post_scheduled
          (map fst (listed (fst (CategoryListView_dispatch 10
                                   Sample.anonymous_get "travel"
                                   Sample.db)))))
  /\ spec_visible Sample.db (now Sample.anonymous_get) Sample.post_public.
Proof.
  split.
  - apply (proj1 (@C1_public_listings_exclude_hidden_posts 10 Sample.db
                    Sample.anonymous_get "travel"%string
                    Sample.post_scheduled)).
    right. right. simpl. lia.
  - apply (proj2 (@C1_public_listings_exclude_hidden_posts 10 Sample.db
                    Sample.anonymous_get "travel"%string
                    Sample.post_public)).
    left. simpl. right. left. reflexivity.
Defined.

(** The listings are not empty for all that: on the sample database the
    home page lists exactly the two posts that pass the policy, latest
    first, with their comment counts. *)
Example home_page_of_sample :
  map (fun ap => (Post.pk (fst ap), snd ap))
      (listed (fst (PostListView_dispatch 10 Sample.anonymous_get Sample.db)))
  = [(5, 0); (1, 2)].
Proof. reflexivity. Qed.

(** C2, as stated, fails on the detail page: post 2 of the sample database
    is not published, and an anonymous GET of its detail page returns it. *)
Lemma C2_counterexample :
  spec_hidden Sample.db (now Sample.anonymous_get) Sample.post_unpublished
  /\ PostDetailView_dispatch Sample.anonymous_get 2 Sample.db
     = (Ok (TemplateResponse "blog/detail.html"
              (DetailContext Sample.post_unpublished [])),
        Sample.db).
Proof. split; [left|]; reflexivity. Qed.

(** C2, amended.  The visibility predicate is applied identically in two
    places, the home listing and the category listing (whose query set is
    the home one narrowed to the category's slug), and every row of either
    passes it; the detail handler applies no visibility predicate: a GET of
    the detail page of a stored Post returns that Post with its comments,
    whatever its publication state. *)
Theorem C2_visibility_in_listings_not_in_detail :
  forall (db : DB.t) (request : Request) (category_slug : string)
         (pk : nat) (p : Post.t),
    get_object_or_404 (DB.posts db) (fun q => Post.pk q =? pk) = Ok p ->
    method request = GET ->
    CategoryListView_get_queryset db request category_slug
    = filter (fun ap => category__slug db category_slug (fst ap))
        (PostListView_get_queryset db request)
    /\ (forall ap, In ap (PostListView_get_queryset db request) ->
                   spec_visible db (now request) (fst ap))
    /\ PostDetailView_dispatch request pk db
       = (Ok (TemplateResponse "blog/detail.html"
                (DetailContext p
                   (filter (fun c => Comment.post_id c =? Post.pk p)
                           (DB.comments db)))),
          db).
Proof.
  intros db request slug pk p Hget Hmethod. split; [|split].
  - apply CategoryListView_queryset_narrows.
  - intros ap. apply PostListView_queryset_visible.
  - unfold PostDetailView_dispatch, View_dispatch. rewrite Hmethod. simpl.
    unfold PostDetailView_get, Post_get_object.
    now rewrite (bind_get_or_404 DB.posts _ _ db Hget).
Qed.

Lemma C2_witness :
  CategoryListView_get_queryset Sample.db Sample.anonymous_get "travel"
  = filter (fun ap => category__slug Sample.db "travel" (fst ap))
      (PostListView_get_queryset Sample.db Sample.anonymous_get)
  /\ (forall ap,
         In ap (PostListView_get_queryset Sample.db Sample.anonymous_get) ->
         spec_visible Sample.db (now Sample.anonymous_get) (fst ap))
  /\ PostDetailView_dispatch Sample.anonymous_get 3 Sample.db
     = (Ok (TemplateResponse "blog/detail.html"
              (DetailContext Sample.post_in_drafts
                 (filter (fun c => Comment.post_id c
                                   =? Post.pk Sample.post_in_drafts)
                         (DB.comments Sample.db)))),
        Sample.db).
Proof.
  apply (@C2_visibility_in_listings_not_in_detail Sample.db
           Sample.anonymous_get "travel"%string 3 Sample.post_in_drafts).
  - reflexivity.
  - reflexivity.
Defined.

(** C9. For every category slug, a GET of the category listing is answered
    with [Http404], status 404, when every Category carrying that slug is
    unpublished, which covers the slug no Category carries as well as the
    Category that exists with [is_published] false; the database is left as
    it was, and in either case the query set of posts is simply empty. *)
Theorem C9_unpublished_category_is_404 :
  forall (POSTS_PER_PAGE : nat) (db : DB.t) (request : Request)
         (category_slug : string),
    method request = GET ->
    (forall c, In c (DB.categories db) ->
               Category.slug c = category_slug ->
               Category.is_published c = false) ->
    CategoryListView_dispatch POSTS_PER_PAGE request category_slug db
    = (Raise Http404, db)
    /\ status_code (fst (CategoryListView_dispatch POSTS_PER_PAGE request
                           category_slug db)) = 404%Z
    /\ CategoryListView_get_queryset db request category_slug = [].
Proof.
  intros k db request slug Hmethod Hunpub.
  assert (Hrun : CategoryListView_dispatch k request slug db
                 = (Raise Http404, db)).
  { unfold CategoryListView_dispatch, View_dispatch. rewrite Hmethod. simpl.
    unfold CategoryListView_get, bind, gets, lift, get_or_404.
    destruct (context_ok_or_404
                (CategoryListView_get_queryset db request slug) k request)
      as [[c ->]| ->]; [|reflexivity].
    rewrite get_object_or_404_none; [reflexivity|].
    intros c' Hin. destruct (String.eqb_spec (Category.slug c') slug) as [E|_].
    - now rewrite (Hunpub c' Hin E).
    - reflexivity. }
  rewrite Hrun. repeat split.
  unfold CategoryListView_get_queryset. apply filter_none.
  intros ap _. unfold category__is_published, category__slug, category_of.
  destruct (Post.category (fst ap)) as [key|]; simpl;
    [|now rewrite !andb_false_r].
  destruct (find (fun c => Category.pk c =? key) (DB.categories db))
    as [c|] eqn:Hfind; [|now rewrite !andb_false_r].
  apply find_some in Hfind. destruct Hfind as [Hin _].
  destruct (String.eqb_spec (Category.slug c) slug) as [E|_];
    [|now rewrite andb_false_r].
  rewrite (Hunpub c Hin E). simpl. now rewrite andb_false_r.
Qed.

Lemma C9_witness :
  CategoryListView_dispatch 10 Sample.anonymous_get "drafts" Sample.db
  = (Raise Http404, Sample.db)
  /\ status_code (fst (CategoryListView_dispatch 10 Sample.anonymous_get
                         "drafts" Sample.db)) = 404%Z
  /\ CategoryListView_get_queryset Sample.db Sample.anonymous_get "drafts"
     = [].
Proof.
  apply (@C9_unpublished_category_is_404 10 Sample.db Sample.anonymous_get
           "drafts"%string).
  - reflexivity.
  - intros c [<-|[<-|[]]]; simpl; [discriminate | reflexivity].
Defined.

(** For comparison, the listing of a published category is served. *)
Example published_category_is_served :
  status_code (fst (CategoryListView_dispatch 10 Sample.anonymous_get
                      "travel" Sample.db)) = 200%Z.
Proof. reflexivity. Qed.

(* ================================================================== *)
(** ** Page size *)

Lemma PostListView_listed_length per_page db request :
  0 < per_page ->
  List.length (listed (fst (PostListView_dispatch per_page request db)))
  <= per_page.
Proof.
  intros Hk. unfold PostListView_dispatch, View_dispatch.
  destruct (method request); simpl; try lia;
    unfold PostListView_get, bind, gets, lift;
    destruct (MultipleObjectMixin_get_context_data _ _ _)
      as [[objects page_obj]|e] eqn:E; simpl;
    solve [ lia | exact (context_length _ _ Hk E) ].
Qed.

Lemma CategoryListView_listed_length per_page db request category_slug :
  0 < per_page ->
  List.length (listed (fst (CategoryListView_dispatch per_page request
                              category_slug db)))
  <= per_page.
Proof.
  intros Hk. unfold CategoryListView_dispatch, View_dispatch.
  destruct (method request); simpl; try lia;
    unfold CategoryListView_get, bind, gets, lift, get_or_404;
    destruct (MultipleObjectMixin_get_context_data _ _ _)
      as [[objects page_obj]|e] eqn:E; simpl; try lia;
    destruct (get_object_or_404 _ _) as [c|e]; simpl;
    solve [ lia | exact (context_length _ _ Hk E) ].
Qed.

Lemma profile_listed_length per_page db request slug :
  List.length (listed (fst (profile per_page request slug db))) <= per_page.
Proof.
  unfold profile, bind, gets, lift, get_or_404.
  destruct (get_object_or_404 _ _) as [u|e]; simpl; [|lia].
  destruct (Paginator.get_page _ _) as [pg|e] eqn:E; simpl; [|lia].
  apply get_page_is_page in E. destruct E as [n E].
  exact (page_length _ _ E).
Qed.

(** C7. For every paginated listing (home index, category listing, profile
    listing) and every [page] parameter, the page returned holds at most
    [POSTS_PER_PAGE] items.  The page size is positive: a list view whose
    [paginate_by] is 0 is not paginated at all. *)
Theorem C7_page_holds_at_most_page_size :
  forall (POSTS_PER_PAGE : nat) (db : DB.t) (request : Request)
         (slug : string),
    0 < POSTS_PER_PAGE ->
    List.length (listed (fst (PostListView_dispatch POSTS_PER_PAGE
                                request db)))
    <= POSTS_PER_PAGE
    /\ List.length (listed (fst (CategoryListView_dispatch POSTS_PER_PAGE
                                   request slug db)))
       <= POSTS_PER_PAGE
    /\ List.length (listed (fst (profile POSTS_PER_PAGE request slug db)))
       <= POSTS_PER_PAGE.
Proof.
  intros k db request slug Hk. split; [|split].
  - now apply PostListView_listed_length.
  - now apply CategoryListView_listed_length.
  - apply profile_listed_length.
Qed.

Lemma C7_witness :
  List.length (listed (fst (PostListView_dispatch 1
                              (Sample.request_of None GET (PageInt 2))
                              Sample.db))) <= 1
  /\ List.length (listed (fst (CategoryListView_dispatch 1
                                 (Sample.request_of None GET (PageInt 2))
                                 "alice" Sample.db))) <= 1
  /\ List.length (listed (fst (profile 1
                                 (Sample.request_of None GET (PageInt 2))
                                 "alice" Sample.db))) <= 1.
Proof.
  apply (@C7_page_holds_at_most_page_size 1 Sample.db
           (Sample.request_of None GET (PageInt 2)) "alice"%string).
  lia.
Defined.

(** The bound is reached: with two posts to a page, the first page of
    alice's profile holds two of her four posts, and the second the rest. *)
Example profile_pages_of_sample :
  map (fun ap => Post.pk (fst ap))
      (listed (fst (profile 2 (Sample.request_of None GET (PageInt 1))
                      "alice" Sample.db))) = [4; 3]
  /\ map (fun ap => Post.pk (fst ap))
         (listed (fst (profile 2 (Sample.request_of None GET (PageInt 2))
                         "alice" Sample.db))) = [2; 1].
Proof. split; reflexivity. Qed.

(* ================================================================== *)
(** ** The profile listing *)

Lemma insert_desc_Permutation (p : Post.t) (l : list Post.t) :
  Permutation (insert_desc p l) (p :: l).
Proof.
  induction l as [|q l IH]; simpl; [apply Permutation_refl|].
  destruct (Post.pub_date q <=? Post.pub_date p)%Z.
  - apply Permutation_refl.
  - eapply perm_trans; [apply perm_skip, IH | apply perm_swap].
Qed.

Lemma order_by_pub_date_desc_Permutation (l : list Post.t) :
  Permutation (order_by_pub_date_desc l) l.
Proof.
  induction l as [|p l IH]; simpl; [apply perm_nil|].
  eapply perm_trans; [apply insert_desc_Permutation | now apply perm_skip].
Qed.

Lemma insert_desc_sorted (p : Post.t) (l : list Post.t) :
  StronglySorted (fun a b => (Post.pub_date b <= Post.pub_date a)%Z) l ->
  StronglySorted (fun a b => (Post.pub_date b <= Post.pub_date a)%Z)
    (insert_desc p l).
Proof.
  induction l as [|q l IH]; intros Hs; simpl.
  - constructor; constructor.
  - apply StronglySorted_inv in Hs. destruct Hs as [Hs Hq].
    destruct (Z.leb_spec (Post.pub_date q) (Post.pub_date p)) as [Hle|Hgt].
    + constructor; [constructor; assumption|].
      constructor; [exact Hle|].
      eapply Forall_impl; [|exact Hq]. simpl. intros r Hr. lia.
    + constructor; [now apply IH|].
      eapply Permutation_Forall;
        [apply Permutation_sym, insert_desc_Permutation|].
      constructor; [lia | exact Hq].
Qed.

Lemma order_by_pub_date_desc_sorted (l : list Post.t) :
  StronglySorted (fun a b => (Post.pub_date b <= Post.pub_date a)%Z)
    (order_by_pub_date_desc l).
Proof.
  induction l as [|p l IH]; simpl; [constructor|].
  now apply insert_desc_sorted.
Qed.


Lemma annotate_sorted (db : DB.t) (l : list Post.t) :
  StronglySorted (fun a b => (Post.pub_date b <= Post.pub_date a)%Z) l ->
  StronglySorted pub_date_desc (annotate db l).
Proof.
  induction 1 as [|p l Hs IH Hp]; simpl; constructor; [exact IH|].
  unfold annotate. apply Forall_map.
  eapply Forall_impl; [|exact Hp]. intros q Hq. exact Hq.
Qed.


(** [profile], once the user is found, is its paginator's [get_page]. *)
Lemma profile_run per_page db request slug u :
  get_object_or_404 (DB.users db)
    (fun v => String.eqb (User.username v) slug) = Ok u ->
  profile per_page request slug db
  = (match Paginator.get_page (Paginator.mk (profile_posts db u) per_page)
             (GET_page request) with
     | Ok pg => Ok (TemplateResponse "blog/profile.html"
                      (ProfileContext u pg))
     | Raise e => Raise e
     end, db).
Proof.
  intros Hget. unfold profile.
  rewrite (bind_get_or_404 DB.users _ _ db Hget).
  unfold bind, gets, lift, ret.
  now destruct (Paginator.get_page _ _).
Qed.




(** On the sample database bob, and anyone else, is shown alice's
    unpublished, drafted and scheduled posts on her profile. *)
Example profile_shows_hidden_posts :
  map (fun ap => (Post.pk (fst ap), Post.is_published (fst ap), snd ap))
      (listed (fst (profile 10 Sample.bob_get "alice" Sample.db)))
  = [(4, true, 0); (3, true, 0); (2, false, 0); (1, true, 2)].
Proof. reflexivity. Qed.

(* ================================================================== *)
(** ** Handlers that only read *)

Ltac unfold_view :=
  unfold bind, gets, lift, ret, raise, get_or_404, modify,
    http_method_not_allowed, handler_or_405; simpl.

Lemma PostListView_reads_only per_page request db :
  snd (PostListView_dispatch per_page request db) = db.
Proof.
  unfold PostListView_dispatch, View_dispatch, PostListView_get.
  destruct (method request); unfold_view; try reflexivity;
    now destruct (MultipleObjectMixin_get_context_data _ _ _).
Qed.

Lemma PostDetailView_reads_only request pk db :
  snd (PostDetailView_dispatch request pk db) = db.
Proof.
  unfold PostDetailView_dispatch, View_dispatch, PostDetailView_get,
    Post_get_object.
  destruct (method request); unfold_view; try reflexivity;
    now destruct (get_object_or_404 _ _).
Qed.

Lemma CategoryListView_reads_only per_page request category_slug db :
  snd (CategoryListView_dispatch per_page request category_slug db) = db.
Proof.
  unfold CategoryListView_dispatch, View_dispatch, CategoryListView_get.
  destruct (method request); unfold_view; try reflexivity;
    (destruct (MultipleObjectMixin_get_context_data _ _ _);
     [now destruct (get_object_or_404 _ _) | reflexivity]).
Qed.

Lemma profile_reads_only per_page request slug db :
  snd (profile per_page request slug db) = db.
Proof.
  unfold profile. unfold_view.
  destruct (get_object_or_404 _ _); [|reflexivity].
  now destruct (Paginator.get_page _ _).
Qed.

(** X1. The four read views (home listing, post detail, category listing,
    profile) leave the database as it was for every request, whatever its
    method, requester and parameters. *)
Theorem X1_read_views_never_write :
  forall (POSTS_PER_PAGE : nat) (request : Request) (pk : nat)
         (slug : string) (db : DB.t),
    snd (PostListView_dispatch POSTS_PER_PAGE request db) = db
    /\ snd (PostDetailView_dispatch request pk db) = db
    /\ snd (CategoryListView_dispatch POSTS_PER_PAGE request slug db) = db
    /\ snd (profile POSTS_PER_PAGE request slug db) = db.
Proof.
  intros k request pk slug db. repeat split.
  - apply PostListView_reads_only.
  - apply PostDetailView_reads_only.
  - apply CategoryListView_reads_only.
  - apply profile_reads_only.
Qed.

(* ================================================================== *)
(** ** The whole URL configuration *)

(** Anonymous requests, view by view. *)
Lemma anonymous_leaves_db (POSTS_PER_PAGE : nat)
    (PostForm : FormData -> option Post.t -> option Post.t)
    (CommentForm : FormData -> option Comment.t -> option Comment.t)
    (UserForm : FormData -> User.t -> option User.t)
    (Post_get_absolute_url : Post.t -> Url)
    (m : ResolverMatch) (request : Request) (db : DB.t) :
  user request = None ->
  snd (urlpatterns POSTS_PER_PAGE PostForm CommentForm UserForm
         Post_get_absolute_url m request db) = db.
Proof.
  intros Hanon. destruct m; simpl.
  - apply PostListView_reads_only.
  - apply PostDetailView_reads_only.
  - unfold PostUpdateView_dispatch. unfold_view. rewrite Hanon.
    now destruct (get_object_or_404 _ _).
  - unfold PostCreateView_dispatch, LoginRequiredMixin_dispatch.
    now rewrite Hanon.
  - unfold PostDeleteView_dispatch. unfold_view. rewrite Hanon.
    now destruct (get_object_or_404 _ _).
  - apply CategoryListView_reads_only.
  - apply profile_reads_only.
  - unfold UserUpdateView_dispatch, UserUpdateView_get_object. unfold_view.
    rewrite Hanon. now destruct (get_object_or_404 _ _).
  - unfold add_comment. now rewrite Hanon.
  - unfold CommentUpdateView_dispatch. unfold_view. rewrite Hanon.
    now destruct (get_object_or_404 _ _).
  - unfold CommentDeleteView_dispatch. unfold_view. rewrite Hanon.
    now destruct (get_object_or_404 _ _).
Qed.

(** X2. No URL of the blog lets an anonymous request change the database:
    for every pattern of [blog/urls.py], every keyword argument and every
    request whose user is not authenticated, the database after the view
    has run is the database before. *)
Theorem X2_anonymous_requests_never_write :
  forall (POSTS_PER_PAGE : nat)
         (PostForm : FormData -> option Post.t -> option Post.t)
         (CommentForm : FormData -> option Comment.t -> option Comment.t)
         (UserForm : FormData -> User.t -> option User.t)
         (Post_get_absolute_url : Post.t -> Url)
         (m : ResolverMatch) (request : Request) (db : DB.t),
    user request = None ->
    snd (urlpatterns POSTS_PER_PAGE PostForm CommentForm UserForm
           Post_get_absolute_url m request db) = db.
Proof.
  intros k PF CF UF url m request db Hanon.
  now apply anonymous_leaves_db.
Qed.

Lemma X2_witness :
  snd (urlpatterns 10 Sample.PostForm Sample.CommentForm Sample.UserForm
         Sample.Post_get_absolute_url (match_delete_post 1)
         Sample.anonymous_post Sample.db) = Sample.db.
Proof.
  apply (@X2_anonymous_requests_never_write 10 Sample.PostForm
           Sample.CommentForm Sample.UserForm Sample.Post_get_absolute_url
           (match_delete_post 1) Sample.anonymous_post Sample.db).
  reflexivity.
Defined.

Ltac unfold_handlers :=
  unfold PostUpdateView_dispatch, PostDeleteView_dispatch,
    PostCreateView_dispatch, UserUpdateView_dispatch,
    CommentUpdateView_dispatch, CommentDeleteView_dispatch,
    LoginRequiredMixin_dispatch, View_dispatch,
    PostUpdateView_get, PostUpdateView_post, PostUpdateView_form_valid,
    PostCreateView_get, PostCreateView_post, DeletionMixin_delete,
    UserUpdateView_get, UserUpdateView_post, UserUpdateView_get_object,
    CommentUpdateView_get, CommentUpdateView_post,
    CommentDeleteView_get, CommentDeleteView_delete,
    Post_get_object, Comment_get_object;
  unfold_view.

Ltac case_split :=
  repeat match goal with
         | |- context [match ?x with _ => _ end] => destruct x eqn:?
         | |- context [if ?x then _ else _] => destruct x eqn:?
         end;
  simpl; try congruence; try reflexivity.

(** X3. Apart from [add_comment], which does not look at the request
    method, no view of the blog changes the database on a request whose
    method is not POST, PUT or DELETE: GET, HEAD, OPTIONS, PATCH and TRACE
    are read-only on every other pattern of [blog/urls.py]. *)
Theorem X3_only_post_put_delete_write :
  forall (POSTS_PER_PAGE : nat)
         (PostForm : FormData -> option Post.t -> option Post.t)
         (CommentForm : FormData -> option Comment.t -> option Comment.t)
         (UserForm : FormData -> User.t -> option User.t)
         (Post_get_absolute_url : Post.t -> Url)
         (m : ResolverMatch) (request : Request) (db : DB.t),
    (forall pk, m <> match_add_comment pk) ->
    method request <> POST ->
    method request <> PUT ->
    method request <> DELETE ->
    snd (urlpatterns POSTS_PER_PAGE PostForm CommentForm UserForm
           Post_get_absolute_url m request db) = db.
Proof.
  intros k PF CF UF url m request db Hm Hpost Hput Hdelete.
  destruct m; simpl;
    try apply PostListView_reads_only;
    try apply PostDetailView_reads_only;
    try apply CategoryListView_reads_only;
    try apply profile_reads_only;
    try (exfalso; now apply (Hm pk));
    unfold_handlers; destruct (method request); try congruence; case_split.
Qed.

Lemma X3_witness :
  snd (urlpatterns 10 Sample.PostForm Sample.CommentForm Sample.UserForm
         Sample.Post_get_absolute_url (match_delete_post 1)
         (Sample.request_of (Some 1) GET PageAbsent) Sample.db) = Sample.db.
Proof.
  apply (@X3_only_post_put_delete_write 10 Sample.PostForm
           Sample.CommentForm Sample.UserForm Sample.Post_get_absolute_url
           (match_delete_post 1) (Sample.request_of (Some 1) GET PageAbsent)
           Sample.db);
    simpl; discriminate.
Defined.

(* ================================================================== *)
(** ** What a writing handler writes *)

(** A lookup that succeeded found the only row that matches. *)
Lemma get_object_or_404_unique {A} (objects : list A) (lookup : A -> bool)
    (x y : A) :
  get_object_or_404 objects lookup = Ok x ->
  In y objects -> lookup y = true -> y = x.
Proof.
  unfold get_object_or_404. intros Hget Hin Hy.
  assert (Hf : In y (filter lookup objects)) by (apply filter_In; auto).
  destruct (filter lookup objects) as [|z [|z' l]]; try discriminate.
  injection Hget as <-. destruct Hf as [->|[]]. reflexivity.
Qed.

(** A lookup that finds one matching row among the others. *)
Lemma get_object_or_404_single {A} (objects : list A) (lookup : A -> bool)
    (x : A) :
  filter lookup objects = [x] -> get_object_or_404 objects lookup = Ok x.
Proof. unfold get_object_or_404. now intros ->. Qed.

(** The key the database assigns is not in use. *)
Lemma next_pk_fresh (keys : list nat) : ~ In (next_pk keys) keys.
Proof.
  intros Hin. unfold next_pk in Hin.
  assert (Hle : S (list_max keys) <= list_max keys).
  { pose proof (proj1 (list_max_le keys (list_max keys)) (Nat.le_refl _))
      as Hall.
    rewrite Forall_forall in Hall. now apply Hall. }
  lia.
Qed.

(** The edit handler of a post either leaves the database alone, or was
    asked by the post's author, with POST or PUT and a valid form, and
    replaced the row of that key. *)
Lemma PostUpdateView_effect
    (PostForm : FormData -> option Post.t -> option Post.t)
    (Post_get_absolute_url : Post.t -> Url)
    (request : Request) (pk : nat) (db : DB.t) :
  snd (PostUpdateView_dispatch PostForm Post_get_absolute_url request pk db)
  = db
  \/ exists p instance,
       get_object_or_404 (DB.posts db) (fun q => Post.pk q =? pk) = Ok p
       /\ user request = Some (Post.author p)
       /\ (method request = POST \/ method request = PUT)
       /\ PostForm (POST_data request) (Some p) = Some instance
       /\ PostUpdateView_dispatch PostForm Post_get_absolute_url request pk db
          = (Ok (HttpResponseRedirect
                   (Post_get_absolute_url
                      (Post.with_author (Post.author p)
                         (Post.with_pk (Post.pk p) instance)))),
             DB.set_posts
               (map (fun q => if Post.pk q =? Post.pk p
                              then Post.with_author (Post.author p)
                                     (Post.with_pk (Post.pk p) instance)
                              else q)
                    (DB.posts db))
               db).
Proof.
  unfold_handlers.
  destruct (get_object_or_404 (DB.posts db) (fun q => Post.pk q =? pk))
    as [p|e] eqn:Hget; [|now left].
  destruct (user_is (Post.author p) (user request)) eqn:Hu; [|now left].
  apply user_is_spec in Hu. simpl.
  destruct (method request) eqn:Hm; simpl; rewrite ?Hget; simpl;
    try (now left);
    (destruct (PostForm (POST_data request) (Some p)) as [instance|] eqn:Hf;
     [|now left]);
    rewrite Hu; right; exists p, instance; simpl; auto 10.
Qed.

(** The delete handler of a post either leaves the database alone, or was
    asked by the post's author, with POST, PUT or DELETE, and removed the
    row of that key. *)
Lemma PostDeleteView_effect (request : Request) (pk : nat) (db : DB.t) :
  snd (PostDeleteView_dispatch request pk db) = db
  \/ exists p,
       get_object_or_404 (DB.posts db) (fun q => Post.pk q =? pk) = Ok p
       /\ user request = Some (Post.author p)
       /\ (method request = POST \/ method request = PUT
           \/ method request = DELETE)
       /\ PostDeleteView_dispatch request pk db
          = (Ok (HttpResponseRedirect blog_index),
             DB.set_comments
               (filter (fun c => negb (Comment.post_id c =? Post.pk p))
                       (DB.comments db))
               (DB.set_posts
                  (filter (fun q => negb (Post.pk q =? Post.pk p))
                          (DB.posts db))
                  db)).
Proof.
  unfold_handlers. unfold Post_delete. unfold_view.
  destruct (get_object_or_404 (DB.posts db) (fun q => Post.pk q =? pk))
    as [p|e] eqn:Hget; [|now left].
  destruct (user_is (Post.author p) (user request)) eqn:Hu; [|now left].
  apply user_is_spec in Hu. simpl.
  destruct (method request) eqn:Hm; simpl; rewrite ?Hget; simpl;
    try (now left);
    right; exists p; auto 10.
Qed.

(** The create handler either leaves the database alone, or was asked by an
    authenticated user, with POST or PUT and a valid form, and appended one
    row, under a new key and with the requester as author. *)
Lemma PostCreateView_effect
    (PostForm : FormData -> option Post.t -> option Post.t)
    (request : Request) (db : DB.t) :
  snd (PostCreateView_dispatch PostForm request db) = db
  \/ exists k instance,
       user request = Some k
       /\ (method request = POST \/ method request = PUT)
       /\ PostForm (POST_data request) None = Some instance
       /\ snd (PostCreateView_dispatch PostForm request db)
          = DB.set_posts
              (DB.posts db
               ++ [Post.with_pk (next_pk (map Post.pk (DB.posts db)))
                     (Post.with_author k instance)])
              db.
Proof.
  unfold_handlers. unfold Post_insert.
  destruct (user request) as [k|] eqn:Hu; simpl; [|now left].
  destruct (method request) eqn:Hm; simpl; try (now left);
    (destruct (PostForm (POST_data request) None) as [instance|] eqn:Hf;
     [|now left]);
    right; exists k, instance; repeat split; auto;
    unfold redirect_to_profile; unfold_view;
    now destruct (is_slug _).
Qed.

(** The edit handler of a comment either leaves the database alone, or was
    asked by the comment's author, with POST or PUT and a valid form, and
    replaced the row of that key. *)
Lemma CommentUpdateView_effect
    (CommentForm : FormData -> option Comment.t -> option Comment.t)
    (request : Request) (pk : nat) (db : DB.t) :
  snd (CommentUpdateView_dispatch CommentForm request pk db) = db
  \/ exists c instance,
       get_object_or_404 (DB.comments db) (fun d => Comment.pk d =? pk) = Ok c
       /\ user request = Some (Comment.author c)
       /\ (method request = POST \/ method request = PUT)
       /\ CommentForm (POST_data request) (Some c) = Some instance
       /\ CommentUpdateView_dispatch CommentForm request pk db
          = (Ok (HttpResponseRedirect
                   (blog_post_detail (Comment.post_id instance))),
             DB.set_comments
               (map (fun d => if Comment.pk d =? Comment.pk c
                              then Comment.with_pk (Comment.pk c) instance
                              else d)
                    (DB.comments db))
               db).
Proof.
  unfold_handlers.
  destruct (get_object_or_404 (DB.comments db) (fun d => Comment.pk d =? pk))
    as [c|e] eqn:Hget; [|now left].
  destruct (user_is (Comment.author c) (user request)) eqn:Hu; [|now left].
  apply user_is_spec in Hu. rewrite Hu. simpl.
  destruct (method request) eqn:Hm; simpl; rewrite ?Hget; simpl;
    try (now left);
    (destruct (CommentForm (POST_data request) (Some c))
       as [instance|] eqn:Hf; [|now left]);
    right; exists c, instance; simpl; auto 10.
Qed.

(** The delete handler of a comment either leaves the database alone, or
    was asked by the comment's author, with POST or DELETE, and removed the
    row of that key. *)
Lemma CommentDeleteView_effect (request : Request) (pk : nat) (db : DB.t) :
  snd (CommentDeleteView_dispatch request pk db) = db
  \/ exists c,
       get_object_or_404 (DB.comments db) (fun d => Comment.pk d =? pk) = Ok c
       /\ user request = Some (Comment.author c)
       /\ (method request = POST \/ method request = DELETE)
       /\ CommentDeleteView_dispatch request pk db
          = (Ok (HttpResponseRedirect
                   (blog_post_detail (Comment.post_id c))),
             DB.set_comments
               (filter (fun d => negb (Comment.pk d =? Comment.pk c))
                       (DB.comments db))
               db).
Proof.
  unfold_handlers. unfold Comment_delete. unfold_view.
  destruct (get_object_or_404 (DB.comments db) (fun d => Comment.pk d =? pk))
    as [c|e] eqn:Hget; [|now left].
  destruct (user_is (Comment.author c) (user request)) eqn:Hu; [|now left].
  apply user_is_spec in Hu. rewrite Hu. simpl.
  destruct (method request) eqn:Hm; simpl; rewrite ?Hget; simpl;
    try (now left);
    right; exists c; auto 10.
Qed.

(** The profile-edit handler either leaves the database alone, or was asked
    by the user of that name, with POST or PUT and a valid form, and
    replaced that user's row, keeping its key. *)
Lemma UserUpdateView_effect
    (UserForm : FormData -> User.t -> option User.t)
    (request : Request) (slug : string) (db : DB.t) :
  snd (UserUpdateView_dispatch UserForm request slug db) = db
  \/ exists u instance,
       get_object_or_404 (DB.users db)
         (fun v => String.eqb (User.username v) slug) = Ok u
       /\ user request = Some (User.pk u)
       /\ (method request = POST \/ method request = PUT)
       /\ UserForm (POST_data request) u = Some instance
       /\ UserUpdateView_dispatch UserForm request slug db
          = (if is_slug (User.username instance)
             then Ok (HttpResponseRedirect
                        (blog_profile (User.username instance)))
             else Raise NoReverseMatch,
             DB.set_users
               (map (fun v => if User.pk v =? User.pk u
                              then User.mk (User.pk u)
                                     (User.username instance)
                                     (User.first_name instance)
                                     (User.last_name instance)
                                     (User.email instance)
                              else v)
                    (DB.users db))
               db).
Proof.
  unfold_handlers.
  destruct (get_object_or_404 (DB.users db)
              (fun v => String.eqb (User.username v) slug))
    as [u|e] eqn:Hget; [|now left].
  destruct (user_is (User.pk u) (user request)) eqn:Hu; [|now left].
  apply user_is_spec in Hu. rewrite Hu. simpl.
  destruct (method request) eqn:Hm; simpl; rewrite ?Hget; simpl;
    try (now left);
    (destruct (UserForm (POST_data request) u) as [instance|] eqn:Hf;
     [|now left]);
    right; exists u, instance; repeat split; auto;
    unfold redirect_to_profile; unfold_view;
    now destruct (is_slug _).
Qed.

(** [add_comment] either leaves the database alone, or was asked by an
    authenticated user for a stored post with a valid form, and appended
    one comment, under a new key. *)
Lemma add_comment_effect
    (CommentForm : FormData -> option Comment.t -> option Comment.t)
    (request : Request) (pk : nat) (db : DB.t) :
  snd (add_comment CommentForm request pk db) = db
  \/ exists k p comment,
       user request = Some k
       /\ get_object_or_404 (DB.posts db) (fun q => Post.pk q =? pk) = Ok p
       /\ CommentForm (POST_data request) None = Some comment
       /\ add_comment CommentForm request pk db
          = (Ok (HttpResponseRedirect (blog_post_detail pk)),
             DB.set_comments
               (DB.comments db
                ++ [Comment.with_pk
                      (next_pk (map Comment.pk (DB.comments db)))
                      (Comment.with_post (Post.pk p)
                         (Comment.with_author k comment))])
               db).
Proof.
  unfold add_comment, Comment_insert. unfold_view.
  destruct (user request) as [k|] eqn:Hu; [|now left].
  destruct (get_object_or_404 (DB.posts db) (fun q => Post.pk q =? pk))
    as [p|e] eqn:Hget; [|now left].
  destruct (CommentForm (POST_data request) None) as [comment|] eqn:Hf;
    [|now left].
  right. exists k, p, comment. auto 10.
Qed.

(* ================================================================== *)
(** ** Who can change which row *)

Lemma replaced_row_matches {A} (key : A -> nat) (k : nat) (new : A)
    (l : list A) (q : A) :
  In q l ->
  ~ In q (map (fun x => if key x =? k then new else x) l) ->
  key q = k.
Proof.
  intros Hin Hout. destruct (Nat.eqb_spec (key q) k) as [E|E]; [exact E|].
  exfalso. apply Hout. apply in_map_iff. exists q. split; [|exact Hin].
  apply Nat.eqb_neq in E. now rewrite E.
Qed.

Lemma removed_row_matches {A} (key : A -> nat) (k : nat)
    (l : list A) (q : A) :
  In q l ->
  ~ In q (filter (fun x => negb (key x =? k)) l) ->
  key q = k.
Proof.
  intros Hin Hout. destruct (Nat.eqb_spec (key q) k) as [E|E]; [exact E|].
  exfalso. apply Hout. apply filter_In. split; [exact Hin|].
  apply Nat.eqb_neq in E. now rewrite E.
Qed.

(** The row a lookup by key found is the only row of that key. *)
Lemma found_by_key {A} (key : A -> nat) (l : list A) (pk : nat) (x q : A) :
  get_object_or_404 l (fun y => key y =? pk) = Ok x ->
  In q l -> key q = key x -> q = x.
Proof.
  intros Hget Hin Hkey.
  apply (get_object_or_404_unique l (fun y => key y =? pk)); auto.
  apply get_object_or_404_ok in Hget. destruct Hget as [_ Hx].
  now rewrite Hkey.
Qed.

(** X4. Whatever URL of the blog is requested, by whom and how, a stored
    Post is changed or removed only through its own edit or delete URL and
    at the request of its own author: if a row of the Post table before the
    request is no longer there after it, the URL is the edit or the delete
    pattern with that row's key, the method is POST, PUT or DELETE, and the
    requester is authenticated as that row's author.  No other view (the
    create view, the comment views, the profile views, the listings)
    touches an existing post. *)
Theorem X4_post_rows_change_only_for_their_author :
  forall (POSTS_PER_PAGE : nat)
         (PostForm : FormData -> option Post.t -> option Post.t)
         (CommentForm : FormData -> option Comment.t -> option Comment.t)
         (UserForm : FormData -> User.t -> option User.t)
         (Post_get_absolute_url : Post.t -> Url)
         (m : ResolverMatch) (request : Request) (db : DB.t) (q : Post.t),
    In q (DB.posts db) ->
    ~ In q (DB.posts
              (snd (urlpatterns POSTS_PER_PAGE PostForm CommentForm UserForm
                      Post_get_absolute_url m request db))) ->
    user request = Some (Post.author q)
    /\ (m = match_edit_post (Post.pk q) \/ m = match_delete_post (Post.pk q))
    /\ (method request = POST \/ method request = PUT
        \/ method request = DELETE).
Proof.
  intros k PF CF UF url m request db q Hin Hout.
  destruct m; simpl in Hout.
  - rewrite PostListView_reads_only in Hout. contradiction.
  - rewrite PostDetailView_reads_only in Hout. contradiction.
  - destruct (PostUpdateView_effect PF url request pk db)
      as [E|(p & instance & Hget & Hu & Hm & _ & E)];
      rewrite E in Hout; simpl in Hout; [contradiction|].
    apply (replaced_row_matches Post.pk) in Hout; [|exact Hin].
    rewrite (@found_by_key _ Post.pk _ _ _ _ Hget Hin Hout).
    pose proof (get_object_or_404_ok _ _ Hget) as [_ Hpk].
    apply Nat.eqb_eq in Hpk. rewrite Hpk.
    split; [exact Hu|]. split; [now left|]. tauto.
  - destruct (PostCreateView_effect PF request db)
      as [E|(u & instance & _ & _ & _ & E)];
      rewrite E in Hout; simpl in Hout; [contradiction|].
    exfalso. apply Hout. apply in_or_app. now left.
  - destruct (PostDeleteView_effect request pk db)
      as [E|(p & Hget & Hu & Hm & E)];
      rewrite E in Hout; simpl in Hout; [contradiction|].
    apply (removed_row_matches Post.pk) in Hout; [|exact Hin].
    rewrite (@found_by_key _ Post.pk _ _ _ _ Hget Hin Hout).
    pose proof (get_object_or_404_ok _ _ Hget) as [_ Hpk].
    apply Nat.eqb_eq in Hpk. rewrite Hpk.
    split; [exact Hu|]. split; [now right | exact Hm].
  - rewrite CategoryListView_reads_only in Hout. contradiction.
  - rewrite profile_reads_only in Hout. contradiction.
  - destruct (UserUpdateView_effect UF request slug db)
      as [E|(u & instance & _ & _ & _ & _ & E)];
      rewrite E in Hout; simpl in Hout; contradiction.
  - destruct (add_comment_effect CF request pk db)
      as [E|(u & p & c & _ & _ & _ & E)];
      rewrite E in Hout; simpl in Hout; contradiction.
  - destruct (CommentUpdateView_effect CF request pk db)
      as [E|(c & instance & _ & _ & _ & _ & E)];
      rewrite E in Hout; simpl in Hout; contradiction.
  - destruct (CommentDeleteView_effect request pk db)
      as [E|(c & _ & _ & _ & E)];
      rewrite E in Hout; simpl in Hout; contradiction.
Qed.

Lemma X4_witness :
  user Sample.alice_post = Some (Post.author Sample.post_public)
  /\ (match_delete_post 1 = match_edit_post (Post.pk Sample.post_public)
      \/ match_delete_post 1
         = match_delete_post (Post.pk Sample.post_public))
  /\ (method Sample.alice_post = POST \/ method Sample.alice_post = PUT
      \/ method Sample.alice_post = DELETE).
Proof.
  apply (@X4_post_rows_change_only_for_their_author 10 Sample.PostForm
           Sample.CommentForm Sample.UserForm Sample.Post_get_absolute_url
           (match_delete_post 1) Sample.alice_post Sample.db
           Sample.post_public).
  - simpl. auto.
  - vm_compute. intros [H|[H|[H|[H|[]]]]]; discriminate.
Defined.




(** X6. On every URL of the blog other than the deletion of a post, a
    stored Comment that is changed or removed by the request is changed or
    removed at the request of its own author: if a row of the Comment table
    before the request is no longer there after it, the requester is
    authenticated as that row's author. *)
Theorem X6_comment_rows_change_only_for_their_author :
  forall (POSTS_PER_PAGE : nat)
         (PostForm : FormData -> option Post.t -> option Post.t)
         (CommentForm : FormData -> option Comment.t -> option Comment.t)
         (UserForm : FormData -> User.t -> option User.t)
         (Post_get_absolute_url : Post.t -> Url)
         (m : ResolverMatch) (request : Request) (db : DB.t)
         (c : Comment.t),
    (forall pk, m <> match_delete_post pk) ->
    In c (DB.comments db) ->
    ~ In c (DB.comments
              (snd (urlpatterns POSTS_PER_PAGE PostForm CommentForm UserForm
                      Post_get_absolute_url m request db))) ->
    user request = Some (Comment.author c).
Proof.
  intros k PF CF UF url m request db c Hm Hin Hout.
  destruct m; simpl in Hout.
  - rewrite PostListView_reads_only in Hout. contradiction.
  - rewrite PostDetailView_reads_only in Hout. contradiction.
  - destruct (PostUpdateView_effect PF url request pk db)
      as [E|(p & instance & _ & _ & _ & _ & E)];
      rewrite E in Hout; simpl in Hout; contradiction.
  - destruct (PostCreateView_effect PF request db)
      as [E|(v & instance & _ & _ & _ & E)];
      rewrite E in Hout; simpl in Hout; contradiction.
  - exfalso. now apply (Hm pk).
  - rewrite CategoryListView_reads_only in Hout. contradiction.
  - rewrite profile_reads_only in Hout. contradiction.
  - destruct (UserUpdateView_effect UF request slug db)
      as [E|(v & instance & _ & _ & _ & _ & E)];
      rewrite E in Hout; simpl in Hout; contradiction.
  - destruct (add_comment_effect CF request pk db)
      as [E|(v & p & d & _ & _ & _ & E)];
      rewrite E in Hout; simpl in Hout; [contradiction|].
    exfalso. apply Hout. apply in_or_app. now left.
  - destruct (CommentUpdateView_effect CF request pk db)
      as [E|(d & instance & Hget & Hu & _ & _ & E)];
      rewrite E in Hout; simpl in Hout; [contradiction|].
    apply (replaced_row_matches Comment.pk) in Hout; [|exact Hin].
    now rewrite (@found_by_key _ Comment.pk _ _ _ _ Hget Hin Hout).
  - destruct (CommentDeleteView_effect request pk db)
      as [E|(d & Hget & Hu & _ & E)];
      rewrite E in Hout; simpl in Hout; [contradiction|].
    apply (removed_row_matches Comment.pk) in Hout; [|exact Hin].
    now rewrite (@found_by_key _ Comment.pk _ _ _ _ Hget Hin Hout).
Qed.

Lemma X6_witness :
  user Sample.bob_post = Some (Comment.author Sample.comment_of_bob).
Proof.
  apply (@X6_comment_rows_change_only_for_their_author 10 Sample.PostForm
           Sample.CommentForm Sample.UserForm Sample.Post_get_absolute_url
           (match_delete_comment 1 1) Sample.bob_post Sample.db
           Sample.comment_of_bob).
  - intros pk. discriminate.
  - simpl. auto.
  - vm_compute. intros [H|[]]. discriminate.
Defined.

(* ================================================================== *)
(** ** Writing and reading back *)

Lemma get_object_or_404_filter {A} (objects : list A) (lookup : A -> bool)
    (x : A) :
  get_object_or_404 objects lookup = Ok x -> filter lookup objects = [x].
Proof.
  unfold get_object_or_404.
  destruct (filter lookup objects) as [|y [|z l]]; try discriminate.
  now intros [= ->].
Qed.

Lemma filter_map_same {A} (g : A -> bool) (f : A -> A) (l : list A) :
  (forall x, g (f x) = g x) ->
  filter g (map f l) = map f (filter g l).
Proof.
  intros Hg. induction l as [|a l IH]; simpl; [reflexivity|].
  rewrite Hg. destruct (g a); simpl; now rewrite IH.
Qed.

(** Replacing the row of a key leaves that key with one row, the new one. *)
Lemma get_after_update {A} (key : A -> nat) (l : list A) (pk : nat)
    (old new : A) :
  key new = key old ->
  get_object_or_404 l (fun y => key y =? pk) = Ok old ->
  get_object_or_404
    (map (fun y => if key y =? key old then new else y) l)
    (fun y => key y =? pk)
  = Ok new.
Proof.
  intros Hkey Hget. apply get_object_or_404_single.
  rewrite filter_map_same.
  - rewrite (get_object_or_404_filter _ _ Hget). simpl.
    now rewrite Nat.eqb_refl.
  - intros x. simpl. destruct (Nat.eqb_spec (key x) (key old)) as [E|E];
      [|reflexivity].
    now rewrite Hkey, E.
Qed.

(** Removing the row of a key leaves no row of that key. *)
Lemma get_after_delete {A} (key : A -> nat) (l : list A) (pk : nat)
    (old : A) :
  get_object_or_404 l (fun y => key y =? pk) = Ok old ->
  get_object_or_404
    (filter (fun y => negb (key y =? key old)) l)
    (fun y => key y =? pk)
  = Raise Http404.
Proof.
  intros Hget. apply get_object_or_404_none.
  intros x Hx. apply filter_In in Hx. destruct Hx as [_ Hx].
  apply get_object_or_404_ok in Hget. destruct Hget as [_ Hold].
  apply Nat.eqb_eq in Hold.
  destruct (Nat.eqb_spec (key x) pk) as [E|E]; [|reflexivity].
  rewrite E, Hold, Nat.eqb_refl in Hx. discriminate.
Qed.

(** Appending a row under a key not in use makes that key find it. *)
Lemma get_after_insert {A} (key : A -> nat) (l : list A) (new : A) :
  ~ In (key new) (map key l) ->
  get_object_or_404 (l ++ [new]) (fun y => key y =? key new) = Ok new.
Proof.
  intros Hfresh. apply get_object_or_404_single.
  rewrite filter_app, filter_none; simpl.
  - now rewrite Nat.eqb_refl.
  - intros x Hx. apply Nat.eqb_neq. intros E. apply Hfresh.
    rewrite <- E. now apply in_map.
Qed.

(** X7. When an authenticated user adds a comment to a stored post with a
    valid form, exactly one row is appended to the Comment table: its
    [author] is the requester and its [post] the post of the URL, whatever
    the form carried for them, and its key is new.  The answer is a
    redirect to the post's detail page, and that page, asked for next,
    shows the former comments of the post followed by the new one. *)
Theorem X7_add_comment_saves_for_requester_and_post :
  forall (CommentForm : FormData -> option Comment.t -> option Comment.t)
         (request : Request) (pk k : nat) (p : Post.t) (comment : Comment.t)
         (db : DB.t),
    user request = Some k ->
    get_object_or_404 (DB.posts db) (fun q => Post.pk q =? pk) = Ok p ->
    CommentForm (POST_data request) None = Some comment ->
    exists saved,
      add_comment CommentForm request pk db
      = (Ok (HttpResponseRedirect (blog_post_detail pk)),
         DB.set_comments (DB.comments db ++ [saved]) db)
      /\ Comment.author saved = k
      /\ Comment.post_id saved = pk
      /\ Comment.text saved = Comment.text comment
      /\ ~ In (Comment.pk saved) (map Comment.pk (DB.comments db))
      /\ PostDetailView_get pk
           (DB.set_comments (DB.comments db ++ [saved]) db)
         = (Ok (TemplateResponse "blog/detail.html"
                  (DetailContext p
                     (filter (fun c => Comment.post_id c =? pk)
                             (DB.comments db) ++ [saved]))),
            DB.set_comments (DB.comments db ++ [saved]) db).
Proof.
  intros CF request pk k p comment db Hu Hget Hf.
  destruct (add_comment_effect CF request pk db)
    as [E|(k' & p' & c' & Hu' & Hget' & Hf' & E)].
  - exfalso. revert E. unfold add_comment, Comment_insert. unfold_view.
    rewrite Hu, Hget, Hf. simpl. intros E.
    apply (f_equal (fun d => List.length (DB.comments d))) in E.
    simpl in E. rewrite length_app in E. simpl in E. lia.
  - rewrite Hu in Hu'. injection Hu' as <-.
    rewrite Hget in Hget'. injection Hget' as <-.
    rewrite Hf in Hf'. injection Hf' as <-.
    pose proof (get_object_or_404_ok _ _ Hget) as [_ Hpk].
    apply Nat.eqb_eq in Hpk.
    eexists. split; [exact E|]. simpl.
    repeat split; auto.
    + apply next_pk_fresh.
    + unfold PostDetailView_get, Post_get_object. unfold_view.
      rewrite Hget. simpl. rewrite Hpk, filter_app. simpl.
      now rewrite Nat.eqb_refl.
Qed.

Lemma X7_witness :
  exists saved,
    add_comment Sample.CommentForm Sample.bob_post 2 Sample.db
    = (Ok (HttpResponseRedirect (blog_post_detail 2)),
       DB.set_comments (DB.comments Sample.db ++ [saved]) Sample.db)
    /\ Comment.author saved = 2
    /\ Comment.post_id saved = 2
    /\ Comment.text saved = Comment.text (Comment.mk 0 "New" 0 0 0)
    /\ ~ In (Comment.pk saved) (map Comment.pk (DB.comments Sample.db))
    /\ PostDetailView_get 2
         (DB.set_comments (DB.comments Sample.db ++ [saved]) Sample.db)
       = (Ok (TemplateResponse "blog/detail.html"
                (DetailContext Sample.post_unpublished
                   (filter (fun c => Comment.post_id c =? 2)
                           (DB.comments Sample.db) ++ [saved]))),
          DB.set_comments (DB.comments Sample.db ++ [saved]) Sample.db).
Proof.
  apply (@X7_add_comment_saves_for_requester_and_post Sample.CommentForm
           Sample.bob_post 2 2 Sample.post_unpublished
           (Comment.mk 0 "New" 0 0 0) Sample.db);
    reflexivity.
Defined.

(** X8. When an authenticated user posts a valid form to the create view,
    exactly one row is appended to the Post table: its [author] is the
    requester, whatever the form carried, and its key is new; the other
    tables are untouched, and the detail page of the new key, asked for
    next, returns the new post. *)
Theorem X8_created_post_belongs_to_requester :
  forall (PostForm : FormData -> option Post.t -> option Post.t)
         (request : Request) (k : nat) (instance : Post.t) (db : DB.t),
    user request = Some k ->
    method request = POST ->
    PostForm (POST_data request) None = Some instance ->
    exists saved,
      snd (PostCreateView_dispatch PostForm request db)
      = DB.set_posts (DB.posts db ++ [saved]) db
      /\ Post.author saved = k
      /\ ~ In (Post.pk saved) (map Post.pk (DB.posts db))
      /\ saved = Post.with_pk (Post.pk saved) (Post.with_author k instance)
      /\ fst (PostDetailView_get (Post.pk saved)
                (DB.set_posts (DB.posts db ++ [saved]) db))
         = Ok (TemplateResponse "blog/detail.html"
                 (DetailContext saved
                    (filter (fun c => Comment.post_id c =? Post.pk saved)
                            (DB.comments db)))).
Proof.
  intros PF request k instance db Hu Hm Hf.
  exists (Post.with_pk (next_pk (map Post.pk (DB.posts db)))
            (Post.with_author k instance)).
  split; [|split; [|split; [|split]]].
  - unfold_handlers. unfold Post_insert. rewrite Hu, Hm. simpl.
    rewrite Hf. unfold redirect_to_profile. unfold_view.
    now destruct (is_slug _).
  - reflexivity.
  - apply next_pk_fresh.
  - reflexivity.
  - unfold PostDetailView_get, Post_get_object. unfold_view.
    rewrite (get_after_insert Post.pk); [reflexivity|].
    apply next_pk_fresh.
Qed.

Lemma X8_witness :
  exists saved,
    snd (PostCreateView_dispatch Sample.PostForm Sample.bob_post Sample.db)
    = DB.set_posts (DB.posts Sample.db ++ [saved]) Sample.db
    /\ Post.author saved = 2
    /\ ~ In (Post.pk saved) (map Post.pk (DB.posts Sample.db))
    /\ saved
       = Post.with_pk (Post.pk saved)
           (Post.with_author 2
              (Post.mk 0 "New" "..." 0 true 0 (Some 1) None 0))
    /\ fst (PostDetailView_get (Post.pk saved)
              (DB.set_posts (DB.posts Sample.db ++ [saved]) Sample.db))
       = Ok (TemplateResponse "blog/detail.html"
               (DetailContext saved
                  (filter (fun c => Comment.post_id c =? Post.pk saved)
                          (DB.comments Sample.db)))).
Proof.
  apply (@X8_created_post_belongs_to_requester Sample.PostForm
           Sample.bob_post 2
           (Post.mk 0 "New" "..." 0 true 0 (Some 1) None 0) Sample.db);
    reflexivity.
Defined.

(** X9. When a post's author posts a valid form to the edit view, the row
    of that key is replaced by the form's instance with the key and the
    author kept: an edit can neither move a post to another key nor hand
    it to another author.  The number of posts is unchanged, every row of
    another key is kept as it was, and a lookup of the key finds the
    edited post. *)
Theorem X9_post_edit_keeps_key_and_author :
  forall (PostForm : FormData -> option Post.t -> option Post.t)
         (Post_get_absolute_url : Post.t -> Url)
         (request : Request) (pk : nat) (p instance : Post.t) (db : DB.t),
    get_object_or_404 (DB.posts db) (fun q => Post.pk q =? pk) = Ok p ->
    user request = Some (Post.author p) ->
    method request = POST ->
    PostForm (POST_data request) (Some p) = Some instance ->
    exists saved db',
      PostUpdateView_dispatch PostForm Post_get_absolute_url request pk db
      = (Ok (HttpResponseRedirect (Post_get_absolute_url saved)), db')
      /\ Post.pk saved = pk
      /\ Post.author saved = Post.author p
      /\ saved = Post.with_author (Post.author p) (Post.with_pk pk instance)
      /\ get_object_or_404 (DB.posts db') (fun q => Post.pk q =? pk)
         = Ok saved
      /\ List.length (DB.posts db') = List.length (DB.posts db)
      /\ (forall q, Post.pk q <> pk ->
                    (In q (DB.posts db') <-> In q (DB.posts db)))
      /\ DB.comments db' = DB.comments db
      /\ DB.users db' = DB.users db.
Proof.
  intros PF url request pk p instance db Hget Hu Hm Hf.
  pose proof (get_object_or_404_ok _ _ Hget) as [_ Hpk].
  apply Nat.eqb_eq in Hpk. subst pk.
  exists (Post.with_author (Post.author p)
            (Post.with_pk (Post.pk p) instance)).
  eexists. split.
  - unfold_handlers. rewrite Hget. simpl.
    rewrite (proj2 (user_is_spec _ _) Hu), Hm. simpl.
    rewrite Hget. simpl. rewrite Hf, Hu. simpl.
    unfold Post_update. simpl. reflexivity.
  - simpl. repeat split; auto.
    + apply (get_after_update Post.pk); [reflexivity | exact Hget].
    + now rewrite length_map.
    + intros Hin. apply in_map_iff in Hin.
      destruct Hin as (x & Hx & Hin).
      destruct (Nat.eqb_spec (Post.pk x) (Post.pk p)) as [E|E].
      * subst q. simpl in H. contradiction.
      * now subst q.
    + intros Hin. apply in_map_iff. exists q. split; [|exact Hin].
      apply Nat.eqb_neq in H. now rewrite H.
Qed.

Lemma X9_witness :
  exists saved db',
    PostUpdateView_dispatch
      (fun _ _ => Some (Post.mk 9 "Roma" "!" 100 true 2 (Some 1) None 90))
      Sample.Post_get_absolute_url Sample.alice_post 1 Sample.db
    = (Ok (HttpResponseRedirect (Sample.Post_get_absolute_url saved)), db')
    /\ Post.pk saved = 1
    /\ Post.author saved = Post.author Sample.post_public
    /\ saved = Post.with_author (Post.author Sample.post_public)
                 (Post.with_pk 1
                    (Post.mk 9 "Roma" "!" 100 true 2 (Some 1) None 90))
    /\ get_object_or_404 (DB.posts db') (fun q => Post.pk q =? 1) = Ok saved
    /\ List.length (DB.posts db') = List.length (DB.posts Sample.db)
    /\ (forall q, Post.pk q <> 1 ->
                  (In q (DB.posts db') <-> In q (DB.posts Sample.db)))
    /\ DB.comments db' = DB.comments Sample.db
    /\ DB.users db' = DB.users Sample.db.
Proof.
  apply (@X9_post_edit_keeps_key_and_author
           (fun _ _ => Some (Post.mk 9 "Roma" "!" 100 true 2 (Some 1) None 90))
           Sample.Post_get_absolute_url Sample.alice_post 1
           Sample.post_public
           (Post.mk 9 "Roma" "!" 100 true 2 (Some 1) None 90) Sample.db);
    reflexivity.
Defined.

(** X10. When a post's author sends POST, PUT or DELETE to the delete view,
    the row of that key is removed and the answer is a redirect to the
    index; every row of another key is kept as it was, the users are
    untouched, and the key is gone: a lookup of it raises [Http404], so the
    detail page asked for next is a 404. *)
Theorem X10_deleted_post_is_gone :
  forall (request : Request) (pk : nat) (p : Post.t) (db : DB.t),
    get_object_or_404 (DB.posts db) (fun q => Post.pk q =? pk) = Ok p ->
    user request = Some (Post.author p) ->
    method request = POST \/ method request = PUT
    \/ method request = DELETE ->
    exists db',
      PostDeleteView_dispatch request pk db
      = (Ok (HttpResponseRedirect blog_index), db')
      /\ get_object_or_404 (DB.posts db') (fun q => Post.pk q =? pk)
         = Raise Http404
      /\ PostDetailView_get pk db' = (Raise Http404, db')
      /\ (forall q, Post.pk q <> pk ->
                    (In q (DB.posts db') <-> In q (DB.posts db)))
      /\ DB.users db' = DB.users db.
Proof.
  intros request pk p db Hget Hu Hm.
  pose proof (get_object_or_404_ok _ _ Hget) as [_ Hpk].
  apply Nat.eqb_eq in Hpk. subst pk.
  eexists. split.
  - unfold_handlers. unfold Post_delete. unfold_view. rewrite Hget. simpl.
    rewrite (proj2 (user_is_spec _ _) Hu). simpl.
    destruct Hm as [Hm|[Hm|Hm]]; rewrite Hm; simpl; rewrite Hget;
      reflexivity.
  - simpl.
    assert (Hgone : get_object_or_404
                      (filter (fun q => negb (Post.pk q =? Post.pk p))
                              (DB.posts db))
                      (fun q => Post.pk q =? Post.pk p) = Raise Http404)
      by (apply (get_after_delete Post.pk); exact Hget).
    repeat split; auto.
    + unfold PostDetailView_get, Post_get_object. unfold_view.
      now rewrite Hgone.
    + intros Hin. now apply filter_In in Hin.
    + intros Hin. apply filter_In. split; [exact Hin|].
      apply Nat.eqb_neq in H. now rewrite H.
Qed.

Lemma X10_witness :
  exists db',
    PostDeleteView_dispatch Sample.alice_post 1 Sample.db
    = (Ok (HttpResponseRedirect blog_index), db')
    /\ get_object_or_404 (DB.posts db') (fun q => Post.pk q =? 1)
       = Raise Http404
    /\ PostDetailView_get 1 db' = (Raise Http404, db')
    /\ (forall q, Post.pk q <> 1 ->
                  (In q (DB.posts db') <-> In q (DB.posts Sample.db)))
    /\ DB.users db' = DB.users Sample.db.
Proof.
  apply (@X10_deleted_post_is_gone Sample.alice_post 1 Sample.post_public
           Sample.db).
  - reflexivity.
  - reflexivity.
  - left. reflexivity.
Defined.



(** X12. When a comment's author posts a valid form to the comment's edit
    view, the row of that key is replaced by the form's instance under the
    same key, and the answer is a redirect to the detail page of the post
    the saved comment is on; the number of comments is unchanged, every
    comment of another key is kept as it was, posts and users are
    untouched, and a lookup of the key finds the edited comment. *)
Theorem X12_comment_edit_keeps_key :
  forall (CommentForm : FormData -> option Comment.t -> option Comment.t)
         (request : Request) (pk : nat) (c instance : Comment.t)
         (db : DB.t),
    get_object_or_404 (DB.comments db) (fun d => Comment.pk d =? pk) = Ok c ->
    user request = Some (Comment.author c) ->
    method request = POST ->
    CommentForm (POST_data request) (Some c) = Some instance ->
    exists db',
      CommentUpdateView_dispatch CommentForm request pk db
      = (Ok (HttpResponseRedirect
               (blog_post_detail (Comment.post_id instance))), db')
      /\ get_object_or_404 (DB.comments db') (fun d => Comment.pk d =? pk)
         = Ok (Comment.with_pk pk instance)
      /\ List.length (DB.comments db') = List.length (DB.comments db)
      /\ (forall d, Comment.pk d <> pk ->
                    (In d (DB.comments db') <-> In d (DB.comments db)))
      /\ DB.posts db' = DB.posts db
      /\ DB.users db' = DB.users db.
Proof.
  intros CF request pk c instance db Hget Hu Hm Hf.
  pose proof (get_object_or_404_ok _ _ Hget) as [_ Hpk].
  apply Nat.eqb_eq in Hpk. subst pk.
  eexists. split.
  - unfold_handlers. rewrite Hget. simpl.
    rewrite (proj2 (user_is_spec _ _) Hu), Hu, Hm. simpl.
    rewrite Hget. simpl. rewrite Hf. simpl.
    unfold Comment_update. simpl. reflexivity.
  - simpl. repeat split; auto.
    + apply (get_after_update Comment.pk); [reflexivity | exact Hget].
    + now rewrite length_map.
    + intros Hin. apply in_map_iff in Hin.
      destruct Hin as (x & Hx & Hin).
      destruct (Nat.eqb_spec (Comment.pk x) (Comment.pk c)) as [E|E].
      * subst d. simpl in H. contradiction.
      * now subst d.
    + intros Hin. apply in_map_iff. exists d. split; [|exact Hin].
      apply Nat.eqb_neq in H. now rewrite H.
Qed.

Lemma X12_witness :
  exists db',
    CommentUpdateView_dispatch
      (fun _ _ => Some (Comment.mk 7 "Very nice" 2 1 150))
      Sample.bob_post 1 Sample.db
    = (Ok (HttpResponseRedirect
             (blog_post_detail
                (Comment.post_id (Comment.mk 7 "Very nice" 2 1 150)))), db')
    /\ get_object_or_404 (DB.comments db') (fun d => Comment.pk d =? 1)
       = Ok (Comment.with_pk 1 (Comment.mk 7 "Very nice" 2 1 150))
    /\ List.length (DB.comments db') = List.length (DB.comments Sample.db)
    /\ (forall d, Comment.pk d <> 1 ->
                  (In d (DB.comments db') <-> In d (DB.comments Sample.db)))
    /\ DB.posts db' = DB.posts Sample.db
    /\ DB.users db' = DB.users Sample.db.
Proof.
  apply (@X12_comment_edit_keeps_key
           (fun _ _ => Some (Comment.mk 7 "Very nice" 2 1 150))
           Sample.bob_post 1 Sample.comment_of_bob
           (Comment.mk 7 "Very nice" 2 1 150) Sample.db);
    reflexivity.
Defined.

(** X13. When a user posts a valid form to their own profile-edit view,
    their row is replaced under the same key, and then the success URL is
    built from the name just saved: the answer is a redirect to the profile
    page of that name when the [slug] converter accepts it, and
    [NoReverseMatch] (a server error, with the row already saved) when it
    does not.  In both cases posts and comments are untouched, so the posts
    listed on the profile, which are found through the key, are the same
    after a change of name as before. *)
Theorem X13_profile_edit_keeps_key_and_posts :
  forall (UserForm : FormData -> User.t -> option User.t)
         (request : Request) (slug : string) (u instance : User.t)
         (db : DB.t),
    get_object_or_404 (DB.users db)
      (fun v => String.eqb (User.username v) slug) = Ok u ->
    user request = Some (User.pk u) ->
    method request = POST ->
    UserForm (POST_data request) u = Some instance ->
    exists saved db',
      UserUpdateView_dispatch UserForm request slug db
      = (if is_slug (User.username saved)
         then Ok (HttpResponseRedirect (blog_profile (User.username saved)))
         else Raise NoReverseMatch,
         db')
      /\ User.pk saved = User.pk u
      /\ User.username saved = User.username instance
      /\ In saved (DB.users db')
      /\ List.length (DB.users db') = List.length (DB.users db)
      /\ DB.posts db' = DB.posts db
      /\ DB.comments db' = DB.comments db
      /\ profile_posts db' saved = profile_posts db u.
Proof.
  intros UF request slug u instance db Hget Hu Hm Hf.
  exists (User.mk (User.pk u) (User.username instance)
            (User.first_name instance) (User.last_name instance)
            (User.email instance)).
  eexists. split.
  - unfold_handlers. rewrite Hget. simpl.
    rewrite (proj2 (user_is_spec _ _) Hu), Hu, Hm. simpl.
    rewrite Hget. simpl. rewrite Hf. simpl.
    unfold User_update, redirect_to_profile. unfold_view.
    destruct (is_slug (User.username instance)); reflexivity.
  - simpl. repeat split; auto.
    + apply in_map_iff. exists u. rewrite Nat.eqb_refl. split; [reflexivity|].
      now apply (get_object_or_404_ok _ _ Hget).
    + now rewrite length_map.
Qed.

Lemma X13_witness :
  exists saved db',
    UserUpdateView_dispatch
      (fun _ u => Some (User.mk 0 "alicia" (User.first_name u)
                          (User.last_name u) (User.email u)))
      Sample.alice_post "alice" Sample.db
    = (if is_slug (User.username saved)
       then Ok (HttpResponseRedirect (blog_profile (User.username saved)))
       else Raise NoReverseMatch,
       db')
    /\ User.pk saved = User.pk Sample.alice
    /\ User.username saved
       = User.username (User.mk 0 "alicia" "Alice" "A" "alice@example.org")
    /\ In saved (DB.users db')
    /\ List.length (DB.users db') = List.length (DB.users Sample.db)
    /\ DB.posts db' = DB.posts Sample.db
    /\ DB.comments db' = DB.comments Sample.db
    /\ profile_posts db' saved = profile_posts Sample.db Sample.alice.
Proof.
  apply (@X13_profile_edit_keeps_key_and_posts
           (fun _ u => Some (User.mk 0 "alicia" (User.first_name u)
                               (User.last_name u) (User.email u)))
           Sample.alice_post "alice"%string Sample.alice
           (User.mk 0 "alicia" "Alice" "A" "alice@example.org") Sample.db);
    reflexivity.
Defined.

(** A name with a dot in it is saved, and then cannot be linked to: the
    answer is a server error and the row carries the new name. *)
Example profile_rename_to_a_name_that_is_no_slug :
  let (response, db') :=
    UserUpdateView_dispatch
      (fun _ u => Some (User.mk 0 "al.ice" (User.first_name u)
                          (User.last_name u) (User.email u)))
      Sample.alice_post "alice" Sample.db in
  response = Raise NoReverseMatch
  /\ status_code response = 500%Z
  /\ map User.username (DB.users db') = ["al.ice"; "bob"]%string.
Proof. repeat split. Qed.

(* ================================================================== *)
(** ** The order of the checks *)

(** X14. A request for a record that does not exist is answered with
    [Http404] before anything is asked about the requester: for every
    request, whoever sends it and by whatever method, the edit and delete
    views of a missing post, the edit and delete views of a missing comment
    and the edit view and the page of a missing profile raise [Http404]
    and leave the database as it was (so an anonymous request gets a 404
    there, not a redirect to the login page).  The detail page of a missing
    post does so on GET, and [add_comment] once the requester is
    authenticated.  The keys are keys the database's 64-bit integer column
    can hold, below 2^63: a larger number in the URL is refused by the
    database layer before any row is looked for, which is another error
    than this one. *)
Theorem X14_missing_record_is_404_first :
  forall (POSTS_PER_PAGE : nat)
         (PostForm : FormData -> option Post.t -> option Post.t)
         (CommentForm : FormData -> option Comment.t -> option Comment.t)
         (UserForm : FormData -> User.t -> option User.t)
         (Post_get_absolute_url : Post.t -> Url)
         (request : Request) (post_pk comment_pk : nat) (slug : string)
         (db : DB.t),
    (Z.of_nat post_pk < 2 ^ 63)%Z ->
    (Z.of_nat comment_pk < 2 ^ 63)%Z ->
    (forall q, In q (DB.posts db) -> Post.pk q <> post_pk) ->
    (forall c, In c (DB.comments db) -> Comment.pk c <> comment_pk) ->
    (forall u, In u (DB.users db) -> User.username u <> slug) ->
    PostUpdateView_dispatch PostForm Post_get_absolute_url request post_pk db
    = (Raise Http404, db)
    /\ PostDeleteView_dispatch request post_pk db = (Raise Http404, db)
    /\ CommentUpdateView_dispatch CommentForm request comment_pk db
       = (Raise Http404, db)
    /\ CommentDeleteView_dispatch request comment_pk db = (Raise Http404, db)
    /\ UserUpdateView_dispatch UserForm request slug db = (Raise Http404, db)
    /\ profile POSTS_PER_PAGE request slug db = (Raise Http404, db)
    /\ (method request = GET ->
        PostDetailView_dispatch request post_pk db = (Raise Http404, db))
    /\ (is_authenticated (user request) = true ->
        add_comment CommentForm request post_pk db = (Raise Http404, db)).
Proof.
  intros k PF CF UF url request ppk cpk slug db _ _ Hpost Hcomment Huser.
  assert (Hp : get_object_or_404 (DB.posts db) (fun q => Post.pk q =? ppk)
               = Raise Http404).
  { apply get_object_or_404_none. intros q Hq.
    apply Nat.eqb_neq. now apply Hpost. }
  assert (Hc : get_object_or_404 (DB.comments db)
                 (fun c => Comment.pk c =? cpk) = Raise Http404).
  { apply get_object_or_404_none. intros c Hin.
    apply Nat.eqb_neq. now apply Hcomment. }
  assert (Hu : get_object_or_404 (DB.users db)
                 (fun u => String.eqb (User.username u) slug)
               = Raise Http404).
  { apply get_object_or_404_none. intros u Hin.
    apply String.eqb_neq. now apply Huser. }
  repeat split.
  - unfold PostUpdateView_dispatch. unfold_view. now rewrite Hp.
  - unfold PostDeleteView_dispatch. unfold_view. now rewrite Hp.
  - unfold CommentUpdateView_dispatch. unfold_view. now rewrite Hc.
  - unfold CommentDeleteView_dispatch. unfold_view. now rewrite Hc.
  - unfold UserUpdateView_dispatch, UserUpdateView_get_object. unfold_view.
    now rewrite Hu.
  - unfold profile. unfold_view. now rewrite Hu.
  - intros Hm. unfold PostDetailView_dispatch, View_dispatch,
      PostDetailView_get, Post_get_object.
    rewrite Hm. unfold_view. now rewrite Hp.
  - intros Hauth. unfold add_comment.
    destruct (user request); [|discriminate]. unfold_view. now rewrite Hp.
Qed.

Lemma X14_witness :
  PostUpdateView_dispatch Sample.PostForm Sample.Post_get_absolute_url
    Sample.bob_get 77 Sample.db = (Raise Http404, Sample.db)
  /\ PostDeleteView_dispatch Sample.bob_get 77 Sample.db
     = (Raise Http404, Sample.db)
  /\ CommentUpdateView_dispatch Sample.CommentForm Sample.bob_get 88
       Sample.db = (Raise Http404, Sample.db)
  /\ CommentDeleteView_dispatch Sample.bob_get 88 Sample.db
     = (Raise Http404, Sample.db)
  /\ UserUpdateView_dispatch Sample.UserForm Sample.bob_get "carol"
       Sample.db = (Raise Http404, Sample.db)
  /\ profile 10 Sample.bob_get "carol" Sample.db = (Raise Http404, Sample.db)
  /\ PostDetailView_dispatch Sample.bob_get 77 Sample.db
     = (Raise Http404, Sample.db)
  /\ add_comment Sample.CommentForm Sample.bob_get 77 Sample.db
     = (Raise Http404, Sample.db).
Proof.
  destruct (@X14_missing_record_is_404_first 10 Sample.PostForm
              Sample.CommentForm Sample.UserForm
              Sample.Post_get_absolute_url Sample.bob_get 77 88
              "carol"%string Sample.db)
    as (H1 & H2 & H3 & H4 & H5 & H6 & H7 & H8).
  - reflexivity.
  - reflexivity.
  - intros q [<-|[<-|[<-|[<-|[<-|[]]]]]]; simpl; discriminate.
  - intros c [<-|[<-|[]]]; simpl; discriminate.
  - intros u [<-|[<-|[]]]; simpl; discriminate.
  - repeat split; auto.
Defined.

(** X15. The login mixin of the profile-edit view and of the two comment
    views is never the one to answer: their own [dispatch] has compared the
    record's owner with the requester before the mixin is reached, and an
    anonymous requester has failed that comparison.  So none of these
    views, nor the delete view of a post, ever answers with a redirect to
    the login page. *)
Theorem X15_owner_guarded_views_never_send_to_login :
  forall (CommentForm : FormData -> option Comment.t -> option Comment.t)
         (UserForm : FormData -> User.t -> option User.t)
         (request : Request) (pk : nat) (slug : string) (db : DB.t)
         (next : Url),
    fst (UserUpdateView_dispatch UserForm request slug db)
    <> Ok (HttpResponseRedirect (login next))
    /\ fst (CommentUpdateView_dispatch CommentForm request pk db)
       <> Ok (HttpResponseRedirect (login next))
    /\ fst (CommentDeleteView_dispatch request pk db)
       <> Ok (HttpResponseRedirect (login next))
    /\ fst (PostDeleteView_dispatch request pk db)
       <> Ok (HttpResponseRedirect (login next)).
Proof.
  intros CF UF request pk slug db next.
  repeat split; unfold_handlers;
    unfold Comment_delete, Post_delete, redirect_to_profile;
    unfold_view; destruct (user request) as [k|]; simpl; case_split.
Qed.

(* ================================================================== *)
(** ** What the listings show *)

(** The page of a position is a page the paginator accepts. *)
Lemma validate_page_of_position (p : Paginator.t) (i : nat) :
  0 < Paginator.per_page p ->
  i < Paginator.count p ->
  Paginator.validate_number p
    (PageInt (Z.of_nat (i / Paginator.per_page p) + 1))
  = Ok (Z.of_nat (i / Paginator.per_page p) + 1)%Z.
Proof.
  intros Hk Hi. set (k := Paginator.per_page p) in *.
  assert (Hlo : k * (i / k) <= i) by apply Nat.Div0.mul_div_le.
  assert (Hnp : i / k + 1 <= (Nat.max 1 (Paginator.count p) + k - 1) / k).
  { apply Nat.div_le_lower_bound; lia. }
  unfold Paginator.validate_number, Paginator.num_pages. fold k.
  destruct (Z.ltb_spec (Z.of_nat (i / k) + 1) 1); [lia|].
  destruct (Nat.eqb_spec k 0); [lia|].
  destruct (Z.ltb_spec
              (Z.of_nat ((Nat.max 1 (Paginator.count p) + k - 1) / k))
              (Z.of_nat (i / k) + 1)); [lia | reflexivity].
Qed.

Lemma page_reaches (p : Paginator.t) (i : nat) (d : AnnotatedPost) :
  0 < Paginator.per_page p ->
  i < Paginator.count p ->
  exists pg,
    Paginator.page p (PageInt (Z.of_nat (i / Paginator.per_page p) + 1))
    = Ok pg
    /\ In (nth i (Paginator.objects p) d) (object_list pg).
Proof.
  intros Hk Hi. unfold Paginator.page.
  rewrite (validate_page_of_position p Hk Hi).
  set (k := Paginator.per_page p) in *.
  assert (Hlo : k * (i / k) <= i) by apply Nat.Div0.mul_div_le.
  assert (Hhi : i < k * S (i / k)) by (apply Nat.mul_succ_div_gt; lia).
  eexists. split; [reflexivity|]. simpl.
  replace (Z.to_nat (Z.of_nat (i / k) + 1 - 1)) with (i / k) by lia.
  apply slice_nth.
  - destruct (Nat.leb_spec (Paginator.count p) (i / k * k + k)); lia.
  - destruct (Nat.leb_spec (Paginator.count p) (i / k * k + k));
      unfold Paginator.count in *; lia.
Qed.

(** Every item of a list view's query set is on one of its pages. *)
Lemma context_reaches (queryset : list AnnotatedPost) (paginate_by : nat)
    (request : Request) (ap : AnnotatedPost) :
  0 < paginate_by ->
  In ap queryset ->
  exists n objects page_obj,
    MultipleObjectMixin_get_context_data queryset paginate_by
      (with_page (PageInt n) request)
    = Ok (objects, page_obj)
    /\ In ap objects.
Proof.
  intros Hk Hin.
  destruct (In_nth _ _ ap Hin) as (i & Hi & Hnth).
  destruct (@page_reaches (Paginator.mk queryset paginate_by) i ap Hk Hi)
    as (pg & Hpg & Hon).
  simpl in *.
  exists (Z.of_nat (i / paginate_by) + 1)%Z, (object_list pg), (Some pg).
  unfold MultipleObjectMixin_get_context_data, paginate_queryset. simpl.
  destruct (Nat.eqb_spec paginate_by 0); [lia|].
  rewrite Hpg. split; [reflexivity|]. now rewrite <- Hnth.
Qed.

(** A post that passes the policy is a row of the home query set, with its
    comment count. *)
Lemma PostListView_queryset_complete db request p :
  In p (DB.posts db) ->
  spec_visible db (now request) p ->
  In (p, comment_count db p) (PostListView_get_queryset db request).
Proof.
  intros Hin (Hpub & (c & Hc & Hcpub) & Hdate).
  unfold PostListView_get_queryset. apply filter_In. split.
  - unfold annotate. apply (in_map (fun q => (q, comment_count db q))).
    eapply Permutation_in;
      [apply Permutation_sym, order_by_pub_date_desc_Permutation | exact Hin].
  - simpl. unfold category__is_published. rewrite Hpub, Hc, Hcpub. simpl.
    now apply Z.leb_le.
Qed.

(** X16. The home listing shows every post that passes the visibility
    policy: for a positive page size, each stored post with
    [is_published = true], a published category and [pub_date <= now] is,
    annotated with the number of stored comments whose post it is, on one
    of the pages that a GET of the index serves. *)
Theorem X16_home_listing_shows_every_visible_post :
  forall (POSTS_PER_PAGE : nat) (db : DB.t) (request : Request)
         (p : Post.t),
    0 < POSTS_PER_PAGE ->
    method request = GET ->
    In p (DB.posts db) ->
    spec_visible db (now request) p ->
    exists n,
      In (p, List.length
               (filter (fun c => Comment.post_id c =? Post.pk p)
                       (DB.comments db)))
         (listed (fst (PostListView_dispatch POSTS_PER_PAGE
                         (with_page (PageInt n) request) db))).
Proof.
  intros k db request p Hk Hm Hin Hvis.
  change (List.length
            (filter (fun c => Comment.post_id c =? Post.pk p)
                    (DB.comments db)))
    with (comment_count db p).
  destruct (@context_reaches (PostListView_get_queryset db request) k
              request (p, comment_count db p) Hk
              (@PostListView_queryset_complete db request p Hin Hvis))
    as (n & objects & page_obj & Hctx & Hon).
  exists n. unfold PostListView_dispatch, View_dispatch. simpl.
  rewrite Hm. unfold PostListView_get. unfold_view.
  change (PostListView_get_queryset db (with_page (PageInt n) request))
    with (PostListView_get_queryset db request).
  now rewrite Hctx.
Qed.

Lemma X16_witness :
  exists n,
    In (Sample.post_public,
        List.length
          (filter (fun c => Comment.post_id c =? Post.pk Sample.post_public)
                  (DB.comments Sample.db)))
       (listed (fst (PostListView_dispatch 1
                       (with_page (PageInt n) Sample.anonymous_get)
                       Sample.db))).
Proof.
  apply (@X16_home_listing_shows_every_visible_post 1 Sample.db
           Sample.anonymous_get Sample.post_public).
  - lia.
  - reflexivity.
  - simpl. auto.
  - repeat split; simpl; try lia.
    exists Sample.travel. split; reflexivity.
Defined.

(** What a category page is made of, when it is served. *)
Lemma CategoryListView_served per_page request category_slug db
    template c objects page_obj db' :
  CategoryListView_dispatch per_page request category_slug db
  = (Ok (TemplateResponse template (CategoryContext c objects page_obj)),
     db') ->
  get_object_or_404 (DB.categories db)
    (fun c' => String.eqb (Category.slug c') category_slug
               && Category.is_published c') = Ok c
  /\ incl objects
       (CategoryListView_get_queryset db request category_slug).
Proof.
  unfold CategoryListView_dispatch, View_dispatch, CategoryListView_get.
  destruct (method request); unfold_view; try discriminate;
    (destruct (MultipleObjectMixin_get_context_data _ _ _)
       as [[objs pg]|e] eqn:Hctx; [|discriminate];
     destruct (get_object_or_404 _ _) as [c'|e] eqn:Hget; [|discriminate];
     simpl; intros [= _ <- <- _ _];
     split; [reflexivity | exact (context_incl _ _ _ Hctx)]).
Qed.

(** X17. A category page that is served shows posts of that category only:
    the category in the context is a stored, published category carrying
    the slug of the URL, and every post listed on the page is joined to
    exactly that category (and passes the visibility policy). *)
Theorem X17_category_page_lists_posts_of_its_category :
  forall (POSTS_PER_PAGE : nat) (request : Request) (category_slug : string)
         (db db' : DB.t) (template : string) (c : Category.t)
         (objects : list AnnotatedPost) (page_obj : option Page),
    CategoryListView_dispatch POSTS_PER_PAGE request category_slug db
    = (Ok (TemplateResponse template (CategoryContext c objects page_obj)),
       db') ->
    In c (DB.categories db)
    /\ Category.slug c = category_slug
    /\ Category.is_published c = true
    /\ (forall ap, In ap objects ->
          category_of db (fst ap) = Some c
          /\ spec_visible db (now request) (fst ap)).
Proof.
  intros k request slug db db' template c objects page_obj Hrun.
  apply CategoryListView_served in Hrun. destruct Hrun as [Hget Hincl].
  pose proof (get_object_or_404_ok _ _ Hget) as [Hin Hc].
  apply andb_true_iff in Hc. destruct Hc as [Hslug Hpub].
  apply String.eqb_eq in Hslug.
  repeat split; auto.
  - apply Hincl in H.
    unfold CategoryListView_get_queryset in H. apply filter_In in H.
    destruct H as [_ H].
    apply andb_true_iff in H. destruct H as [H Hs].
    apply andb_true_iff in H. destruct H as [H _].
    apply andb_true_iff in H. destruct H as [_ Hp].
    unfold category__slug in Hs. unfold category__is_published in Hp.
    destruct (category_of db (fst ap)) as [c'|] eqn:Hc'; [|discriminate].
    f_equal.
    apply (get_object_or_404_unique _ _ _ Hget).
    + unfold category_of in Hc'.
      destruct (Post.category (fst ap)); [|discriminate].
      now apply find_some in Hc'.
    + now rewrite Hs, Hp.
  - now apply (CategoryListView_queryset_visible db request slug),
      Hincl.
  - now apply (CategoryListView_queryset_visible db request slug),
      Hincl.
  - now apply (CategoryListView_queryset_visible db request slug),
      Hincl.
Qed.

Lemma X17_witness :
  In Sample.travel (DB.categories Sample.db)
  /\ Category.slug Sample.travel = "travel"%string
  /\ Category.is_published Sample.travel = true
  /\ (forall ap,
         In ap (listed (fst (CategoryListView_dispatch 10
                               Sample.anonymous_get "travel" Sample.db))) ->
         category_of Sample.db (fst ap) = Some Sample.travel
         /\ spec_visible Sample.db (now Sample.anonymous_get) (fst ap)).
Proof.
  apply (@X17_category_page_lists_posts_of_its_category 10
           Sample.anonymous_get "travel"%string Sample.db Sample.db
           "blog/category.html"%string Sample.travel
           (listed (fst (CategoryListView_dispatch 10 Sample.anonymous_get
                           "travel" Sample.db)))
           (Some (mkPage
                    (listed (fst (CategoryListView_dispatch 10
                                    Sample.anonymous_get "travel"
                                    Sample.db))) 1))).
  reflexivity.
Defined.

(* ================================================================== *)
(** ** Order of the listings *)

Lemma StronglySorted_filter {A} (R : A -> A -> Prop) (f : A -> bool)
    (l : list A) :
  StronglySorted R l -> StronglySorted R (filter f l).
Proof.
  induction 1 as [|a l Hs IH Ha]; simpl; [constructor|].
  destruct (f a); [|exact IH].
  constructor; [exact IH|].
  rewrite Forall_forall in *. intros x Hx. apply Ha.
  now apply filter_In in Hx.
Qed.

Lemma StronglySorted_skipn {A} (R : A -> A -> Prop) (n : nat) (l : list A) :
  StronglySorted R l -> StronglySorted R (skipn n l).
Proof.
  revert l. induction n as [|n IH]; intros l Hs; simpl; [exact Hs|].
  destruct l as [|a l]; [constructor|].
  apply IH. now apply StronglySorted_inv in Hs.
Qed.

Lemma StronglySorted_firstn {A} (R : A -> A -> Prop) (n : nat) (l : list A) :
  StronglySorted R l -> StronglySorted R (firstn n l).
Proof.
  revert l. induction n as [|n IH]; intros l Hs; simpl; [constructor|].
  destruct l as [|a l]; [constructor|].
  apply StronglySorted_inv in Hs. destruct Hs as [Hs Ha].
  constructor; [now apply IH|].
  rewrite Forall_forall in *. intros x Hx. apply Ha.
  rewrite <- (firstn_skipn n l). apply in_or_app. now left.
Qed.

Lemma StronglySorted_slice {A} (R : A -> A -> Prop) (bottom top : nat)
    (l : list A) :
  StronglySorted R l -> StronglySorted R (Paginator.slice bottom top l).
Proof.
  intros Hs. unfold Paginator.slice.
  now apply StronglySorted_firstn, StronglySorted_skipn.
Qed.

Lemma PostListView_queryset_sorted db request :
  StronglySorted pub_date_desc (PostListView_get_queryset db request).
Proof.
  unfold PostListView_get_queryset.
  apply StronglySorted_filter, annotate_sorted,
    order_by_pub_date_desc_sorted.
Qed.

Lemma CategoryListView_queryset_sorted db request category_slug :
  StronglySorted pub_date_desc
    (CategoryListView_get_queryset db request category_slug).
Proof.
  unfold CategoryListView_get_queryset.
  apply StronglySorted_filter, annotate_sorted,
    order_by_pub_date_desc_sorted.
Qed.

Lemma page_sorted (p : Paginator.t) (arg : PageArg) (pg : Page) :
  StronglySorted pub_date_desc (Paginator.objects p) ->
  Paginator.page p arg = Ok pg ->
  StronglySorted pub_date_desc (object_list pg).
Proof.
  intros Hs Hpg. apply page_ok in Hpg. destruct Hpg as [_ ->].
  now apply StronglySorted_slice.
Qed.

Lemma context_sorted (queryset : list AnnotatedPost) (paginate_by : nat)
    (request : Request) objects page_obj :
  StronglySorted pub_date_desc queryset ->
  MultipleObjectMixin_get_context_data queryset paginate_by request
  = Ok (objects, page_obj) ->
  StronglySorted pub_date_desc objects.
Proof.
  intros Hs.
  unfold MultipleObjectMixin_get_context_data, paginate_queryset.
  destruct (paginate_by =? 0).
  - now intros [= <- _].
  - destruct (match GET_page request with
              | PageAbsent => _ | PageInt n => _
              | PageLast => _ | PageOther => _ end) as [n|e];
      [|discriminate].
    destruct (Paginator.page _ _) as [pg|e] eqn:Hpage.
    + intros [= <- _].
      exact (@page_sorted (Paginator.mk queryset paginate_by) _ _ Hs Hpage).
    + destruct e; discriminate.
Qed.

(** X18. Whatever the home listing, a category listing or a profile page
    shows is in the order [-pub_date]: on every page served, for every
    request, a post is followed only by posts whose [pub_date] is not
    later than its own. *)
Theorem X18_every_listing_is_latest_first :
  forall (POSTS_PER_PAGE : nat) (request : Request) (slug : string)
         (db : DB.t),
    StronglySorted pub_date_desc
      (listed (fst (PostListView_dispatch POSTS_PER_PAGE request db)))
    /\ StronglySorted pub_date_desc
         (listed (fst (CategoryListView_dispatch POSTS_PER_PAGE request
                         slug db)))
    /\ StronglySorted pub_date_desc
         (listed (fst (profile POSTS_PER_PAGE request slug db))).
Proof.
  intros k request slug db. split; [|split].
  - unfold PostListView_dispatch, View_dispatch, PostListView_get.
    destruct (method request); unfold_view; try constructor;
      (destruct (MultipleObjectMixin_get_context_data _ _ _)
         as [[objects page_obj]|e] eqn:E; simpl; [|constructor];
       exact (@context_sorted _ _ _ _ _
                (PostListView_queryset_sorted db request) E)).
  - unfold CategoryListView_dispatch, View_dispatch, CategoryListView_get.
    destruct (method request); unfold_view; try constructor;
      (destruct (MultipleObjectMixin_get_context_data _ _ _)
         as [[objects page_obj]|e] eqn:E; simpl; [|constructor];
       destruct (get_object_or_404 _ _); simpl; [|constructor];
       exact (@context_sorted _ _ _ _ _
                (CategoryListView_queryset_sorted db request slug) E)).
  - unfold profile. unfold_view.
    destruct (get_object_or_404 _ _) as [u|e]; simpl; [|constructor].
    destruct (Paginator.get_page _ _) as [pg|e] eqn:E; simpl; [|constructor].
    apply get_page_is_page in E. destruct E as [n E].
    apply (@page_sorted (Paginator.mk (profile_posts db u) k) (PageInt n)
             pg); [|exact E].
    unfold profile_posts. simpl.
    apply annotate_sorted, order_by_pub_date_desc_sorted.
Qed.

(* ================================================================== *)
(** ** The [page] parameter *)

(** The paginator's verdict on an integer, given the number of pages. *)
Lemma validate_number_int (p : Paginator.t) (n np : Z) :
  Paginator.num_pages p = Ok np ->
  Paginator.validate_number p (PageInt n)
  = if ((1 <=? n) && (n <=? np))%Z then Ok n else Raise EmptyPage.
Proof.
  intros Hnp. unfold Paginator.validate_number. rewrite Hnp.
  destruct (Z.ltb_spec n 1), (Z.leb_spec 1 n); try lia; simpl;
    [reflexivity|].
  destruct (Z.ltb_spec np n), (Z.leb_spec n np); try lia; reflexivity.
Qed.

(** X19. The list views are strict about [page].  With a positive page
    size, a GET of the home listing is served (status 200) when the
    parameter is absent (page 1), is the word [last] (the last page), or is
    an integer from 1 to the number of pages, and the page served then
    carries that number; any other integer and any other text give
    status 404. *)
Theorem X19_list_view_page_parameter_is_strict :
  forall (POSTS_PER_PAGE : nat) (request : Request) (db : DB.t) (np : Z),
    0 < POSTS_PER_PAGE ->
    method request = GET ->
    Paginator.num_pages
      (Paginator.mk (PostListView_get_queryset db request) POSTS_PER_PAGE)
    = Ok np ->
    match GET_page request with
    | PageAbsent =>
        exists objects pg,
          fst (PostListView_dispatch POSTS_PER_PAGE request db)
          = Ok (TemplateResponse "blog/index.html"
                  (ListContext objects (Some pg)))
          /\ number pg = 1%Z
    | PageLast =>
        exists objects pg,
          fst (PostListView_dispatch POSTS_PER_PAGE request db)
          = Ok (TemplateResponse "blog/index.html"
                  (ListContext objects (Some pg)))
          /\ number pg = np
    | PageInt n =>
        if ((1 <=? n) && (n <=? np))%Z
        then exists objects pg,
               fst (PostListView_dispatch POSTS_PER_PAGE request db)
               = Ok (TemplateResponse "blog/index.html"
                       (ListContext objects (Some pg)))
               /\ number pg = n
        else PostListView_dispatch POSTS_PER_PAGE request db
             = (Raise Http404, db)
    | PageOther =>
        PostListView_dispatch POSTS_PER_PAGE request db = (Raise Http404, db)
    end.
Proof.
  intros k request db np Hk Hm Hnp.
  assert (Hge : (1 <= np)%Z).
  { destruct (@num_pages_ok
                (Paginator.mk (PostListView_get_queryset db request) k) Hk)
      as (np' & Hnp' & Hge).
    rewrite Hnp in Hnp'. now injection Hnp' as <-. }
  assert (Hpage : forall n,
            Paginator.page
              (Paginator.mk (PostListView_get_queryset db request) k)
              (PageInt n)
            = if ((1 <=? n) && (n <=? np))%Z
              then Ok (mkPage
                         (Paginator.slice (Z.to_nat (n - 1) * k)
                            (if List.length
                                  (PostListView_get_queryset db request)
                                <=? Z.to_nat (n - 1) * k + k
                             then List.length
                                    (PostListView_get_queryset db request)
                             else Z.to_nat (n - 1) * k + k)
                            (PostListView_get_queryset db request))
                         n)
              else Raise EmptyPage).
  { intros n. unfold Paginator.page.
    rewrite (validate_number_int _ n Hnp).
    now destruct ((1 <=? n) && (n <=? np))%Z. }
  unfold PostListView_dispatch, View_dispatch, PostListView_get.
  rewrite Hm. unfold_view.
  unfold MultipleObjectMixin_get_context_data, paginate_queryset.
  destruct (Nat.eqb_spec k 0) as [E|_]; [lia|].
  destruct (GET_page request) as [|n| |]; simpl.
  - rewrite Hpage.
    destruct (Z.leb_spec 1 1), (Z.leb_spec 1 np); try lia. simpl. eauto.
  - rewrite Hpage.
    destruct ((1 <=? n) && (n <=? np))%Z; simpl; eauto.
  - rewrite Hnp, Hpage.
    destruct (Z.leb_spec 1 np), (Z.leb_spec np np); try lia. simpl. eauto.
  - reflexivity.
Qed.

Lemma X19_witness :
  PostListView_dispatch 1 (Sample.request_of None GET (PageInt 3)) Sample.db
  = (Raise Http404, Sample.db).
Proof.
  apply (@X19_list_view_page_parameter_is_strict 1
           (Sample.request_of None GET (PageInt 3)) Sample.db 2%Z).
  - lia.
  - reflexivity.
  - reflexivity.
Defined.

(** X20. The profile page is lenient about [page].  With a positive page
    size, the profile of a stored user is served for every value of the
    parameter: an integer from 1 to the number of pages gets its page, any
    other integer (zero and negative ones included) gets the last page, and
    an absent parameter or any text, the word [last] included, gets the
    first page. *)
Theorem X20_profile_page_parameter_is_lenient :
  forall (POSTS_PER_PAGE : nat) (request : Request) (slug : string)
         (u : User.t) (db : DB.t) (np : Z),
    0 < POSTS_PER_PAGE ->
    get_object_or_404 (DB.users db)
      (fun v => String.eqb (User.username v) slug) = Ok u ->
    Paginator.num_pages
      (Paginator.mk (profile_posts db u) POSTS_PER_PAGE) = Ok np ->
    exists pg,
      profile POSTS_PER_PAGE request slug db
      = (Ok (TemplateResponse "blog/profile.html" (ProfileContext u pg)), db)
      /\ number pg
         = match GET_page request with
           | PageInt n => if ((1 <=? n) && (n <=? np))%Z then n else np
           | PageAbsent | PageLast | PageOther => 1%Z
           end.
Proof.
  intros k request slug u db np Hk Hget Hnp.
  assert (Hge : (1 <= np)%Z).
  { destruct (@num_pages_ok (Paginator.mk (profile_posts db u) k) Hk)
      as (np' & Hnp' & Hge).
    rewrite Hnp in Hnp'. now injection Hnp' as <-. }
  assert (Hpage : forall n, (1 <= n <= np)%Z ->
            exists pg,
              Paginator.page (Paginator.mk (profile_posts db u) k)
                (PageInt n) = Ok pg
              /\ number pg = n).
  { intros n Hn. unfold Paginator.page.
    rewrite (validate_number_int _ n Hnp).
    destruct (Z.leb_spec 1 n), (Z.leb_spec n np); try lia. simpl. eauto. }
  rewrite (@profile_run k db request slug u Hget).
  unfold Paginator.get_page.
  destruct (GET_page request) as [|n| |]; simpl;
    try (destruct (Hpage 1%Z) as (pg & -> & Hn); [lia|]; now exists pg).
  fold (Paginator.validate_number (Paginator.mk (profile_posts db u) k)
          (PageInt n)).
  rewrite (validate_number_int _ n Hnp).
  destruct ((1 <=? n) && (n <=? np))%Z eqn:Hin.
  - apply andb_true_iff in Hin. destruct Hin as [H1 H2].
    apply Z.leb_le in H1, H2.
    destruct (Hpage n) as (pg & -> & Hn); [lia|]. now exists pg.
  - rewrite Hnp.
    destruct (Hpage np) as (pg & -> & Hn); [lia|]. now exists pg.
Qed.

Lemma X20_witness :
  exists pg,
    profile 2 (Sample.request_of None GET (PageInt 0)) "alice" Sample.db
    = (Ok (TemplateResponse "blog/profile.html"
             (ProfileContext Sample.alice pg)), Sample.db)
    /\ number pg
       = match GET_page (Sample.request_of None GET (PageInt 0)) with
         | PageInt n => if ((1 <=? n) && (n <=? 2))%Z then n else 2%Z
         | PageAbsent | PageLast | PageOther => 1%Z
         end.
Proof.
  apply (@X20_profile_page_parameter_is_lenient 2
           (Sample.request_of None GET (PageInt 0)) "alice"%string
           Sample.alice Sample.db 2%Z).
  - lia.
  - reflexivity.
  - reflexivity.
Defined.

(* ================================================================== *)
(** ** The pages together *)

Lemma firstn_then_slice {A} (b k : nat) (l : list A) :
  firstn b l
  ++ Paginator.slice b (Nat.min (List.length l) (b + k)) l
  = firstn (b + k) l.
Proof.
  unfold Paginator.slice.
  destruct (Nat.le_gt_cases (b + k) (List.length l)) as [Hle|Hgt].
  - rewrite Nat.min_r by lia.
    replace (b + k - b) with k by lia.
    rewrite firstn_skipn_comm.
    replace (firstn b l) with (firstn b (firstn (b + k) l))
      by (rewrite firstn_firstn; f_equal; lia).
    apply firstn_skipn.
  - rewrite Nat.min_l by lia.
    rewrite (firstn_all2 (n := List.length l - b) (skipn b l))
      by (rewrite length_skipn; lia).
    rewrite firstn_skipn.
    symmetry. apply firstn_all2. lia.
Qed.

Lemma concat_slices {A} (k N : nat) (l : list A) :
  List.concat (map (fun n => Paginator.slice ((n - 1) * k)
                          (Nat.min (List.length l) ((n - 1) * k + k)) l)
              (seq 1 N))
  = firstn (N * k) l.
Proof.
  induction N as [|N IH]; [reflexivity|].
  rewrite seq_S, map_app, concat_app, IH. simpl.
  rewrite app_nil_r.
  replace (N - 0) with N by lia.
  rewrite firstn_then_slice. f_equal. lia.
Qed.

(** X21. The pages of a paginator divide its list: with a positive page
    size every page from the first to the last is served, and their items,
    taken in order, are the items of the list, each exactly once and in
    the same order.  So going through the pages of the home listing, of a
    category listing or of a profile shows every post of the listing once
    and none twice. *)
Theorem X21_pages_divide_the_listing :
  forall (p : Paginator.t),
    0 < Paginator.per_page p ->
    Forall (fun r => exists pg, r = Ok pg) (all_pages p)
    /\ List.concat (map page_items (all_pages p)) = Paginator.objects p.
Proof.
  intros p Hk.
  destruct (num_pages_ok p Hk) as (np & Hnp & Hge).
  unfold all_pages. rewrite Hnp.
  assert (Hpage : forall n, In n (seq 1 (Z.to_nat np)) ->
            Paginator.page p (PageInt (Z.of_nat n))
            = Ok (mkPage
                    (Paginator.slice ((n - 1) * Paginator.per_page p)
                       (Nat.min (List.length (Paginator.objects p))
                          ((n - 1) * Paginator.per_page p
                           + Paginator.per_page p))
                       (Paginator.objects p))
                    (Z.of_nat n))).
  { intros n Hn. apply in_seq in Hn.
    unfold Paginator.page.
    rewrite (validate_number_int _ (Z.of_nat n) Hnp).
    destruct (Z.leb_spec 1 (Z.of_nat n)), (Z.leb_spec (Z.of_nat n) np);
      try lia.
    simpl. f_equal.
    replace (Z.to_nat (Z.of_nat n - 1)) with (n - 1) by lia.
    f_equal. f_equal. unfold Paginator.count.
    destruct (Nat.leb_spec (List.length (Paginator.objects p))
                ((n - 1) * Paginator.per_page p + Paginator.per_page p));
      lia. }
  split.
  - apply Forall_forall. intros r Hr. apply in_map_iff in Hr.
    destruct Hr as (n & <- & Hn). rewrite (Hpage n Hn). eauto.
  - rewrite map_map.
    rewrite (map_ext_in _
               (fun n => Paginator.slice ((n - 1) * Paginator.per_page p)
                           (Nat.min (List.length (Paginator.objects p))
                              ((n - 1) * Paginator.per_page p
                               + Paginator.per_page p))
                           (Paginator.objects p))).
    + rewrite concat_slices. apply firstn_all2.
      assert (Hnp' : np = Z.of_nat
                ((Nat.max 1 (Paginator.count p) + Paginator.per_page p - 1)
                 / Paginator.per_page p)).
      { unfold Paginator.num_pages in Hnp.
        destruct (Paginator.per_page p =? 0); [discriminate|].
        now injection Hnp as <-. }
      rewrite Hnp', Nat2Z.id.
      pose proof (Nat.mul_succ_div_gt
                    (Nat.max 1 (Paginator.count p) + Paginator.per_page p - 1)
                    (Paginator.per_page p) ltac:(lia)) as Hgt.
      unfold Paginator.count in *. nia.
    + intros n Hn. now rewrite (Hpage n Hn).
Qed.

Lemma X21_witness :
  Forall (fun r => exists pg, r = Ok pg)
    (all_pages (Paginator.mk (profile_posts Sample.db Sample.alice) 3))
  /\ List.concat (map page_items
               (all_pages
                  (Paginator.mk (profile_posts Sample.db Sample.alice) 3)))
     = Paginator.objects
         (Paginator.mk (profile_posts Sample.db Sample.alice) 3).
Proof.
  apply (@X21_pages_divide_the_listing
           (Paginator.mk (profile_posts Sample.db Sample.alice) 3)).
  simpl. lia.
Defined.

(* ================================================================== *)
(** ** Comment counts *)

Lemma annotate_count db l ap :
  In ap (annotate db l) -> snd ap = comment_count db (fst ap).
Proof.
  unfold annotate. intros H. apply in_map_iff in H.
  now destruct H as (q & <- & _).
Qed.

(** Whatever a listing shows carries the number of comments stored for
    it. *)
Lemma listed_count per_page request slug db ap :
  In ap (listed (fst (PostListView_dispatch per_page request db)))
  \/ In ap (listed (fst (CategoryListView_dispatch per_page request slug
                           db)))
  \/ In ap (listed (fst (profile per_page request slug db))) ->
  snd ap = comment_count db (fst ap).
Proof.
  intros [H|[H|H]].
  - apply PostListView_listed_incl in H.
    unfold PostListView_get_queryset in H. apply filter_In in H.
    destruct H as [H _]. exact (annotate_count _ _ _ H).
  - apply CategoryListView_listed_incl in H.
    unfold CategoryListView_get_queryset in H. apply filter_In in H.
    destruct H as [H _]. exact (annotate_count _ _ _ H).
  - revert H. unfold profile. unfold_view.
    destruct (get_object_or_404 _ _) as [u|e]; simpl; [|intros []].
    destruct (Paginator.get_page _ _) as [pg|e] eqn:E; simpl; [|intros []].
    apply get_page_is_page in E. destruct E as [n E].
    intros H. apply (page_incl _ _ E) in H. simpl in H.
    exact (annotate_count _ _ _ H).
Qed.

(** X22. The comment count a listing shows next to a post and the
    comments its detail page shows agree: a GET of the detail page of a
    stored post returns exactly the stored comments whose [post] is that
    post, and wherever the post appears in the home listing, a category
    listing or a profile, its [comment_count] is their number. *)
Theorem X22_comment_count_matches_detail_page :
  forall (POSTS_PER_PAGE : nat) (request listing_request : Request)
         (slug : string) (pk : nat) (p : Post.t) (db : DB.t),
    get_object_or_404 (DB.posts db) (fun q => Post.pk q =? pk) = Ok p ->
    method request = GET ->
    exists comments,
      PostDetailView_dispatch request pk db
      = (Ok (TemplateResponse "blog/detail.html" (DetailContext p comments)),
         db)
      /\ (forall c, In c comments
                    <-> In c (DB.comments db) /\ Comment.post_id c = pk)
      /\ (forall n,
             In (p, n)
                (listed (fst (PostListView_dispatch POSTS_PER_PAGE
                                listing_request db)))
             \/ In (p, n)
                   (listed (fst (CategoryListView_dispatch POSTS_PER_PAGE
                                   listing_request slug db)))
             \/ In (p, n)
                   (listed (fst (profile POSTS_PER_PAGE listing_request
                                   slug db))) ->
             n = List.length comments).
Proof.
  intros k request request' slug pk p db Hget Hm.
  pose proof (get_object_or_404_ok _ _ Hget) as [_ Hpk].
  apply Nat.eqb_eq in Hpk.
  exists (filter (fun c => Comment.post_id c =? Post.pk p) (DB.comments db)).
  split; [|split].
  - unfold PostDetailView_dispatch, View_dispatch, PostDetailView_get,
      Post_get_object.
    rewrite Hm. unfold_view. now rewrite Hget.
  - intros c. rewrite filter_In, Nat.eqb_eq, Hpk. reflexivity.
  - intros n H. apply listed_count in H. exact H.
Qed.

Lemma X22_witness :
  exists comments,
    PostDetailView_dispatch Sample.anonymous_get 1 Sample.db
    = (Ok (TemplateResponse "blog/detail.html"
             (DetailContext Sample.post_public comments)),
       Sample.db)
    /\ (forall c, In c comments
                  <-> In c (DB.comments Sample.db) /\ Comment.post_id c = 1)
    /\ (forall n,
           In (Sample.post_public, n)
              (listed (fst (PostListView_dispatch 10 Sample.bob_get
                              Sample.db)))
           \/ In (Sample.post_public, n)
                 (listed (fst (CategoryListView_dispatch 10 Sample.bob_get
                                 "travel" Sample.db)))
           \/ In (Sample.post_public, n)
                 (listed (fst (profile 10 Sample.bob_get "travel"
                                 Sample.db))) ->
           n = List.length comments).
Proof.
  apply (@X22_comment_count_matches_detail_page 10 Sample.anonymous_get
           Sample.bob_get "travel"%string 1 Sample.post_public Sample.db);
    reflexivity.
Defined.

(* ================================================================== *)
(** ** Building a URL and resolving it *)

Lemma int_str (n : nat) : int (str n) = n.
Proof.
  unfold int, str. rewrite DecimalString.NilEmpty.usu.
  apply DecimalNat.Unsigned.of_to.
Qed.

Lemma string_of_uint_digits (d : Decimal.uint) :
  string_forall is_digit (DecimalString.NilEmpty.string_of_uint d) = true.
Proof. induction d; simpl; auto. Qed.

Lemma str_digits (n : nat) : string_forall is_digit (str n) = true.
Proof. apply string_of_uint_digits. Qed.

Lemma str_not_empty (n : nat) : str n <> EmptyString.
Proof.
  intros E. pose proof (int_str n) as H. rewrite E in H. simpl in H.
  subst n. discriminate E.
Qed.

(** A run of a class is captured whole when what follows is outside the
    class. *)
Lemma span_stop (f : ascii -> bool) (value : string) (c : ascii)
    (rest : string) :
  string_forall f value = true ->
  f c = false ->
  span f (value ++ String c rest) = (value, String c rest).
Proof.
  intros Hv Hc. induction value as [|a value IH]; simpl in *.
  - now rewrite Hc.
  - apply andb_true_iff in Hv. destruct Hv as [Ha Hv].
    now rewrite Ha, (IH Hv).
Qed.

(** A digit is not the letter that starts [create]. *)
Lemma digit_is_not_c (c : ascii) :
  is_digit c = true -> Ascii.eqb "c" c = false.
Proof.
  destruct c as [[|] [|] [|] [|] [|] [|] [|] [|]];
    vm_compute; congruence.
Qed.

Arguments int : simpl never.
Arguments str : simpl never.
Arguments Ascii.eqb : simpl nomatch.

Ltac resolve_step :=
  repeat (simpl;
          repeat match goal with
                 | H : is_digit ?c = true |- context [Ascii.eqb _ ?c] =>
                     rewrite (digit_is_not_c c H)
                 | H : is_digit _ = true |- _ => rewrite H
                 | H : is_slug_char _ = true |- _ => rewrite H
                 | H : string_forall ?f ?v = true
                   |- context [span ?f (?v ++ String ?c ?r)%string] =>
                     rewrite (@span_stop f v c r H eq_refl)
                 end).

(** X23. Every URL the blog can build for one of its patterns resolves
    back to that pattern with the same keyword arguments: whenever
    [reverse] succeeds on a pattern name and arguments, [resolve] of the
    path it built gives that name and those arguments.  In particular no
    pattern of [blog/urls.py] is shadowed by one listed before it
    ([posts/create/] is not taken for [posts/<int:pk>/], nor a comment URL
    for a post URL), and a number survives being printed and parsed. *)
Theorem X23_reverse_then_resolve :
  forall (m : ResolverMatch) (path : string),
    reverse m = Some path -> resolve path = Some m.
Proof.
  intros m path Hrev. unfold resolve, blog_urlpatterns.
  destruct m; simpl in Hrev;
    try (destruct (is_slug _) eqn:Hslug; [|discriminate]);
    injection Hrev as <-;
    try reflexivity.
  all: try (pose proof (str_digits pk) as Hd;
            pose proof (int_str pk) as Hi;
            pose proof (@str_not_empty pk) as Hn;
            destruct (str pk) as [|c s]; [contradiction|];
            simpl in Hd; apply andb_true_iff in Hd;
            destruct Hd as [Hc Hs]).
  all: try (pose proof (str_digits post_id) as Hd';
            pose proof (int_str post_id) as Hi';
            pose proof (@str_not_empty post_id) as Hn';
            destruct (str post_id) as [|c' s']; [contradiction|];
            simpl in Hd'; apply andb_true_iff in Hd';
            destruct Hd' as [Hc' Hs']).
  all: try (match goal with
            | H : is_slug ?x = true |- _ =>
                destruct x as [|c s]; [discriminate|];
                simpl in H; apply andb_true_iff in H;
                destruct H as [Hc Hs]
            end).
  all: resolve_step; rewrite ?Hi, ?Hi'; reflexivity.
Qed.

Lemma X23_witness :
  resolve "posts/30/edit_comment/405/" = Some (match_edit_comment 30 405).
Proof.
  apply (@X23_reverse_then_resolve (match_edit_comment 30 405)
           "posts/30/edit_comment/405/"%string).
  reflexivity.
Defined.

(* ================================================================== *)
(** ** Empty listings *)

(** X24. A listing with nothing to show is served as an empty first page,
    not refused.  With a positive page size and no [page] parameter, a GET
    answers with the listing's template and a page numbered 1 that holds
    no item in each of three cases, each on its own: the home listing when
    no post passes the filter; the listing of a published category when no
    post of that category passes it, whatever the other categories hold;
    and the profile of a user who has no post, whatever the other users
    have. *)
Theorem X24_empty_listing_is_an_empty_first_page :
  forall (POSTS_PER_PAGE : nat) (request : Request)
         (category_slug username : string)
         (c : Category.t) (u : User.t) (db : DB.t),
    0 < POSTS_PER_PAGE ->
    method request = GET ->
    GET_page request = PageAbsent ->
    (PostListView_get_queryset db request = [] ->
     PostListView_dispatch POSTS_PER_PAGE request db
     = (Ok (TemplateResponse "blog/index.html"
              (ListContext [] (Some (mkPage [] 1)))), db))
    /\ (get_object_or_404 (DB.categories db)
          (fun c' => String.eqb (Category.slug c') category_slug
                     && Category.is_published c') = Ok c ->
        CategoryListView_get_queryset db request category_slug = [] ->
        CategoryListView_dispatch POSTS_PER_PAGE request category_slug db
        = (Ok (TemplateResponse "blog/category.html"
                 (CategoryContext c [] (Some (mkPage [] 1)))), db))
    /\ (get_object_or_404 (DB.users db)
          (fun v => String.eqb (User.username v) username) = Ok u ->
        (forall p, In p (DB.posts db) -> Post.author p <> User.pk u) ->
        profile POSTS_PER_PAGE request username db
        = (Ok (TemplateResponse "blog/profile.html"
                 (ProfileContext u (mkPage [] 1))), db)).
Proof.
  intros k request slug name c u db Hk Hm Hpage.
  assert (Hone : (Nat.max 1 0 + k - 1) / k = 1).
  { replace (Nat.max 1 0 + k - 1) with k by (simpl; lia).
    apply Nat.div_same. lia. }
  assert (Hempty : forall n, Paginator.slice 0 n (@nil AnnotatedPost) = []).
  { intros n. unfold Paginator.slice. simpl. apply firstn_nil. }
  assert (Hctx : MultipleObjectMixin_get_context_data [] k request
                 = Ok ([], Some (mkPage [] 1))).
  { unfold MultipleObjectMixin_get_context_data, paginate_queryset,
      Paginator.page, Paginator.validate_number, Paginator.num_pages,
      Paginator.count.
    rewrite Hpage. simpl List.length. simpl Paginator.per_page.
    destruct (Nat.eqb_spec k 0) as [E|_]; [lia|].
    rewrite Hone. simpl. now rewrite Hempty. }
  split; [|split].
  - intros Hhome.
    unfold PostListView_dispatch, View_dispatch, PostListView_get.
    rewrite Hm. unfold_view. now rewrite Hhome, Hctx.
  - intros Hcat Hqs.
    unfold CategoryListView_dispatch, View_dispatch, CategoryListView_get.
    rewrite Hm. unfold_view. now rewrite Hqs, Hctx, Hcat.
  - intros Huser Hnone.
    rewrite (@profile_run k db request name u Huser).
    assert (Hposts : profile_posts db u = []).
    { unfold profile_posts. rewrite filter_none; [reflexivity|].
      intros p Hp. apply Nat.eqb_neq. now apply Hnone. }
    rewrite Hposts, Hpage.
    unfold Paginator.get_page, Paginator.page, Paginator.validate_number,
      Paginator.num_pages, Paginator.count.
    simpl List.length. simpl Paginator.per_page.
    destruct (Nat.eqb_spec k 0) as [E|_]; [lia|].
    rewrite Hone. simpl. now rewrite Hempty.
Qed.

(** An instance of each case: the home listing of a site without posts,
    and, on the sample site with its visible posts, a published category
    that has none and a user who wrote none. *)
Lemma X24_witness :
  PostListView_dispatch 10 Sample.anonymous_get
    (DB.mk [Sample.alice] [Sample.travel] [] [] [])
  = (Ok (TemplateResponse "blog/index.html"
           (ListContext [] (Some (mkPage [] 1)))),
     DB.mk [Sample.alice] [Sample.travel] [] [] [])
  /\ CategoryListView_dispatch 10 Sample.anonymous_get "misc"
       (DB.mk [Sample.alice; Sample.bob; User.mk 3 "carol" "Carol" "C" "c@example.org"]
          [Sample.travel; Sample.drafts; Category.mk 3 "Misc" "misc" "Rest" true 0]
          [] (DB.posts Sample.db) (DB.comments Sample.db))
     = (Ok (TemplateResponse "blog/category.html"
              (CategoryContext (Category.mk 3 "Misc" "misc" "Rest" true 0)
                 [] (Some (mkPage [] 1)))),
        DB.mk [Sample.alice; Sample.bob; User.mk 3 "carol" "Carol" "C" "c@example.org"]
          [Sample.travel; Sample.drafts; Category.mk 3 "Misc" "misc" "Rest" true 0]
          [] (DB.posts Sample.db) (DB.comments Sample.db))
  /\ profile 10 Sample.anonymous_get "carol"
       (DB.mk [Sample.alice; Sample.bob; User.mk 3 "carol" "Carol" "C" "c@example.org"]
          [Sample.travel; Sample.drafts; Category.mk 3 "Misc" "misc" "Rest" true 0]
          [] (DB.posts Sample.db) (DB.comments Sample.db))
     = (Ok (TemplateResponse "blog/profile.html"
              (ProfileContext (User.mk 3 "carol" "Carol" "C" "c@example.org")
                 (mkPage [] 1))),
        DB.mk [Sample.alice; Sample.bob; User.mk 3 "carol" "Carol" "C" "c@example.org"]
          [Sample.travel; Sample.drafts; Category.mk 3 "Misc" "misc" "Rest" true 0]
          [] (DB.posts Sample.db) (DB.comments Sample.db)).
Proof.
  destruct (@X24_empty_listing_is_an_empty_first_page 10
              Sample.anonymous_get "travel"%string "alice"%string
              Sample.travel Sample.alice
              (DB.mk [Sample.alice] [Sample.travel] [] [] []))
    as (Hhome & _ & _); try reflexivity; [lia|].
  destruct (@X24_empty_listing_is_an_empty_first_page 10
              Sample.anonymous_get "misc"%string "carol"%string
              (Category.mk 3 "Misc" "misc" "Rest" true 0)
              (User.mk 3 "carol" "Carol" "C" "c@example.org")
              (DB.mk [Sample.alice; Sample.bob;
                      User.mk 3 "carol" "Carol" "C" "c@example.org"]
                 [Sample.travel; Sample.drafts;
                  Category.mk 3 "Misc" "misc" "Rest" true 0]
                 [] (DB.posts Sample.db) (DB.comments Sample.db)))
    as (_ & Hcat & Hprofile); try reflexivity; [lia|].
  split; [|split].
  - apply Hhome. reflexivity.
  - apply Hcat; reflexivity.
  - apply Hprofile; [reflexivity|].
    intros p [<-|[<-|[<-|[<-|[<-|[]]]]]]; simpl; discriminate.
Defined.
